(** * ugreen_leds_ethutild: LED command codec, controller sequencing,
      bandwidth sampler and LED state manager

    Shallow embedding of led_controller.cpp, bandwidth_monitor.cpp and
    led_state_manager.cpp.  Bytes ([uint8_t]) and the C [int] values are
    integers of [Z]; a [std::vector<uint8_t>] is a [list Z] whose elements
    are bytes; [double] is the binary64 type [float]. *)

From Stdlib Require Import ZArith List Bool Lia Floats.
From Stdlib Require Ascii String.
Import ListNotations.
Open Scope Z_scope.

(** ** Machine integers *)

Definition is_u8 (x : Z) : Prop := 0 <= x < 256.
Definition is_u16 (x : Z) : Prop := 0 <= x < 65536.

Definition UINT64_MAX : Z := 2 ^ 64 - 1.
Definition is_u64 (x : Z) : Prop := 0 <= x <= UINT64_MAX.

(** Conversions to a narrower unsigned type keep the low bits. *)
Definition to_u8 (x : Z) : Z := x mod 256.
Definition to_u16 (x : Z) : Z := x mod 65536.
Definition to_u64 (x : Z) : Z := x mod 2 ^ 64.

(** [data[i]] of a byte vector; the code only indexes inside the vector. *)
Definition at_ (data : list Z) (i : Z) : Z := nth (Z.to_nat i) data 0.

Definition size (data : list Z) : Z := Z.of_nat (length data).

(** ** Checksums (led_controller.cpp, the three static helpers) *)

(** The loop [for (i = 0; i < size; ++i) sum += data[i]].  The accumulator
    is a C [int]; it cannot overflow on a vector of fewer than 2^23 bytes,
    and the vectors of this program have at most 32. *)
Fixpoint sum_loop (data : list Z) (n : nat) (sum : Z) : Z :=
  match n, data with
  | S n', b :: rest => sum_loop rest n' (sum + b)
  | _, _ => sum
  end.

Definition compute_checksum (data : list Z) (size_ : Z) : Z :=
  if (size_ <? 2) || (size_ >? size data) then 0
  else sum_loop data (Z.to_nat size_) 0.

Definition verify_checksum (data : list Z) : bool :=
  let sz := size data in
  if sz <? 2 then false
  else
    let sum := compute_checksum data (sz - 2) in
    negb (sum =? 0)
    && (sum =? Z.lor (at_ data (sz - 1)) (Z.shiftl (at_ data (sz - 2)) 8)).

Definition append_checksum (data : list Z) : list Z :=
  let sum := compute_checksum data (size data) in
  data ++ [Z.land (Z.shiftr sum 8) 255; Z.land sum 255].

(** ** LED identifiers and colours (led_controller.h) *)

Inductive led_type_t : Type :=
| power | netdev | disk1 | disk2 | disk3 | disk4 | disk5 | disk6 | disk7 | disk8.

(** The cast [(uint8_t)id] of the enum class. *)
Definition led_byte (id : led_type_t) : Z :=
  match id with
  | power => 0 | netdev => 1 | disk1 => 2 | disk2 => 3 | disk3 => 4
  | disk4 => 5 | disk5 => 6 | disk6 => 7 | disk7 => 8 | disk8 => 9
  end.

Record rgb_color_t : Type := { r : Z; g : Z; b : Z }.

Definition COLOR_WHITE : rgb_color_t := {| r := 255; g := 255; b := 255 |}.
Definition COLOR_GREEN : rgb_color_t := {| r := 0; g := 255; b := 0 |}.
Definition COLOR_BLUE : rgb_color_t := {| r := 0; g := 0; b := 255 |}.
Definition COLOR_RED : rgb_color_t := {| r := 255; g := 0; b := 0 |}.
Definition COLOR_OFF : rgb_color_t := {| r := 0; g := 0; b := 0 |}.

(** [std::array<std::optional<uint8_t>, 4>]: a braced list shorter than four
    leaves the remaining slots empty. *)
Definition params_t : Type :=
  (option Z * option Z * option Z * option Z)%type.

Definition value_or (o : option Z) (d : Z) : Z :=
  match o with Some v => v | None => d end.

(** The vector [_change_status] builds before it stores the id in byte 0:
    the ten bytes of the initialiser list followed by [append_checksum]. *)
Definition command_data (command : Z) (params : params_t) : list Z :=
  let '(p0, p1, p2, p3) := params in
  append_checksum
    [0; 160; 1; 0; 0; command;
     value_or p0 0; value_or p1 0; value_or p2 0; value_or p3 0].

(** [data[0] = x] on a vector. *)
Definition set_first (data : list Z) (x : Z) : list Z :=
  match data with
  | [] => []
  | _ :: rest => x :: rest
  end.

(** The block handed to [write_block_data]. *)
Definition command_frame (id : led_type_t) (command : Z) (params : params_t)
  : list Z :=
  set_first (command_data command params) (led_byte id).

(** ** The I2C device and the world the controller runs in *)

(** What the process does to the outside, in program order: the three bus
    transactions of [i2c_device_t] and the [usleep] dwell delays. *)
Inductive event : Type :=
| WriteBlock (command : Z) (data : list Z)
| ReadBlock (command : Z) (len : Z)
| ReadByte (command : Z)
| Usleep (usec : Z).

(** Modelled from the spec: i2c.h and i2c.cpp ([i2c_device_t]) are not among
    the sources.  Each call is a single blocking bus transaction with no
    internal retry; [write_block_data] returns an [int] that is 0 on success,
    [read_block_data] returns the bytes read (fewer than requested on a
    short read) and [read_byte_data] the byte read.  What the chip answers
    may depend on everything that happened before, so the answers are
    functions of the history. *)
Record i2c_device_t : Type := {
  write_block_data : list event -> Z -> list Z -> Z;
  read_block_data : list event -> Z -> Z -> list Z;
  read_byte_data : list event -> Z -> Z
}.

(** A computation of the controller: it reads the history so far and
    returns a value with the extended history. *)
Definition io (A : Type) : Type := list event -> A * list event.

Definition ret {A : Type} (a : A) : io A := fun h => (a, h).

Definition bind {A B : Type} (m : io A) (k : A -> io B) : io B :=
  fun h => let '(a, h') := m h in k a h'.

Notation "x <- m ;; k" := (bind m (fun x => k))
  (at level 61, m at next level, right associativity).
Notation "m ;;; k" := (bind m (fun _ => k))
  (at level 61, right associativity).

Definition usleep (usec : Z) : io unit :=
  fun h => (tt, h ++ [Usleep usec]).

(** The events a computation adds to the history [h]. *)
Definition emitted {A : Type} (m : io A) (h : list event) : list event :=
  skipn (length h) (snd (m h)).

Inductive op_mode_t : Type := off | on | blink | breath.

Record led_data_t : Type := {
  is_available : bool;
  op_mode : op_mode_t;
  brightness : Z;
  color_r : Z; color_g : Z; color_b : Z;
  t_on : Z; t_off : Z
}.

Section LedController.

Variable _i2c : i2c_device_t.

Definition i2c_write_block_data (command : Z) (data : list Z) : io Z :=
  fun h => (write_block_data _i2c h command data,
            h ++ [WriteBlock command data]).

Definition i2c_read_block_data (command len : Z) : io (list Z) :=
  fun h => (read_block_data _i2c h command len,
            h ++ [ReadBlock command len]).

Definition i2c_read_byte_data (command : Z) : io Z :=
  fun h => (read_byte_data _i2c h command, h ++ [ReadByte command]).

Definition _change_status (id : led_type_t) (command : Z) (params : params_t)
  : io Z :=
  i2c_write_block_data (led_byte id) (command_frame id command params).

Definition set_onoff (id : led_type_t) (status : Z) : io Z :=
  if status >=? 2 then ret (-1)
  else _change_status id 3 (Some status, None, None, None).

Definition _set_blink_or_breath (command : Z) (id : led_type_t)
    (t_on_ t_off_ : Z) : io Z :=
  let t_hight := to_u16 (t_on_ + t_off_) in
  let t_low := t_on_ in
  _change_status id command
    (Some (to_u8 (Z.shiftr t_hight 8)),
     Some (to_u8 (Z.land t_hight 255)),
     Some (to_u8 (Z.shiftr t_low 8)),
     Some (to_u8 (Z.land t_low 255))).

Definition set_rgb (id : led_type_t) (r_ g_ b_ : Z) : io Z :=
  _change_status id 2 (Some r_, Some g_, Some b_, None).

Definition set_brightness (id : led_type_t) (brightness_ : Z) : io Z :=
  _change_status id 1 (Some brightness_, None, None, None).

Definition is_last_modification_successful : io bool :=
  v <- i2c_read_byte_data 128 ;; ret (v =? 1).

Definition set_blink (id : led_type_t) (t_on_ t_off_ : Z) : io Z :=
  _set_blink_or_breath 4 id t_on_ t_off_.

Definition set_breath (id : led_type_t) (t_on_ t_off_ : Z) : io Z :=
  _set_blink_or_breath 5 id t_on_ t_off_.

Definition turn_off_led (id : led_type_t) : io Z := set_onoff id 0.

Definition set_led_state (id : led_type_t) (on_ : bool)
    (color : rgb_color_t) (brightness_ : Z) : io Z :=
  if negb on_ then turn_off_led id
  else
    result <- set_rgb id (r color) (g color) (b color) ;;
    if negb (result =? 0) then ret result
    else
      usleep 10000 ;;;
      result <- set_brightness id brightness_ ;;
      if negb (result =? 0) then ret result
      else
        usleep 10000 ;;;
        set_onoff id 1.

Definition turn_off_all_leds : io Z :=
  result <- turn_off_led power ;;
  usleep 20000 ;;;
  temp_result <- turn_off_led netdev ;;
  let result := if negb (temp_result =? 0)
                then Z.lor result temp_result else result in
  usleep 20000 ;;;
  temp_result <- turn_off_led disk1 ;;
  let result := if negb (temp_result =? 0)
                then Z.lor result temp_result else result in
  usleep 20000 ;;;
  temp_result <- turn_off_led disk2 ;;
  let result := if negb (temp_result =? 0)
                then Z.lor result temp_result else result in
  if result =? 0 then
    usleep 50000 ;;;
    ok <- is_last_modification_successful ;;
    if negb ok then ret (-1) else ret result
  else ret result.

Definition unavailable : led_data_t :=
  {| is_available := false; op_mode := off; brightness := 0;
     color_r := 0; color_g := 0; color_b := 0; t_on := 0; t_off := 0 |}.

Definition get_status (id : led_type_t) : io led_data_t :=
  raw_data <- i2c_read_block_data (to_u8 (129 + led_byte id)) 11 ;;
  if negb (size raw_data =? 11) || negb (verify_checksum raw_data)
  then ret unavailable
  else
    let mode :=
      match at_ raw_data 0 with
      | 0 => Some off | 1 => Some on | 2 => Some blink | 3 => Some breath
      | _ => None
      end in
    match mode with
    | None => ret unavailable
    | Some m =>
        let t_hight :=
          Z.lor (Z.shiftl (at_ raw_data 5) 8) (at_ raw_data 6) in
        let t_low :=
          Z.lor (Z.shiftl (at_ raw_data 7) 8) (at_ raw_data 8) in
        ret {| is_available := true; op_mode := m;
               brightness := at_ raw_data 1;
               color_r := at_ raw_data 2;
               color_g := at_ raw_data 3;
               color_b := at_ raw_data 4;
               t_on := to_u16 t_low;
               t_off := to_u16 (t_hight - t_low) |}
    end.

End LedController.

(** ** Doubles *)

(** Conversion of an integer to [double]: round to nearest, ties to even. *)
Definition of_Z (z : Z) : float :=
  SF2Prim (binary_normalize prec emax z 0 false).

(** ** Bandwidth sampler (bandwidth_monitor.h, bandwidth_monitor.cpp) *)

(** [timestamp] is the reading of the steady clock in nanoseconds. *)
Record network_stats_t : Type := {
  rx_bytes : Z;
  tx_bytes : Z;
  timestamp : Z
}.

Record bandwidth_info_t : Type := {
  rx_mbps : float;
  tx_mbps : float;
  total_mbps : float;
  usage_percentage : float;
  valid : bool
}.

Record bandwidth_monitor_t : Type := {
  _capacity_mbps : Z;
  _last_stats : network_stats_t;
  _initialized : bool
}.

(** The constructor; [_last_stats] is not set before [initialize]. *)
Definition bandwidth_monitor (capacity_mbps : Z) : bandwidth_monitor_t :=
  {| _capacity_mbps := capacity_mbps;
     _last_stats := {| rx_bytes := 0; tx_bytes := 0; timestamp := 0 |};
     _initialized := false |}.

Definition set_last_stats (m : bandwidth_monitor_t) (s : network_stats_t)
  : bandwidth_monitor_t :=
  {| _capacity_mbps := _capacity_mbps m;
     _last_stats := s;
     _initialized := _initialized m |}.

(** What [read_network_stats] returns when neither sysfs nor /proc/net/dev
    could be read: both counters keep the sentinel. *)
Definition unreadable (now : Z) : network_stats_t :=
  {| rx_bytes := UINT64_MAX; tx_bytes := UINT64_MAX; timestamp := now |}.

Definition readable (s : network_stats_t) : bool :=
  negb (rx_bytes s =? UINT64_MAX) && negb (tx_bytes s =? UINT64_MAX).

(** [initialize]: [exists_] is the answer of [std::filesystem::exists] for
    the interface and [stats] the sample [read_network_stats] returns. *)
Definition initialize (m : bandwidth_monitor_t) (exists_ : bool)
    (stats : network_stats_t) : bool * bandwidth_monitor_t :=
  if negb exists_ then (false, m)
  else
    let init := readable stats in
    (init, {| _capacity_mbps := _capacity_mbps m;
              _last_stats := stats;
              _initialized := init |}).

(** The conditional expression that computes [rx_diff] and [tx_diff], in
    [uint64_t] arithmetic. *)
Definition counter_diff (current last : Z) : Z :=
  if current >=? last then to_u64 (current - last)
  else to_u64 (to_u64 (UINT64_MAX - last) + current).

(** [duration_cast<milliseconds>] of a difference of nanoseconds truncates
    toward zero. *)
Definition elapsed_ms (current last : network_stats_t) : Z :=
  Z.quot (timestamp current - timestamp last) 1000000.

Definition invalid_info : bandwidth_info_t :=
  {| rx_mbps := 0; tx_mbps := 0; total_mbps := 0; usage_percentage := 0;
     valid := false |}.

(** [get_bandwidth_usage]: [current_stats] is the sample that
    [read_network_stats] returns in this call (it is not read when the
    monitor is not initialised). *)
Definition get_bandwidth_usage (m : bandwidth_monitor_t)
    (current_stats : network_stats_t) : bandwidth_info_t * bandwidth_monitor_t :=
  if negb (_initialized m) then (invalid_info, m)
  else if (rx_bytes current_stats =? UINT64_MAX)
          || (tx_bytes current_stats =? UINT64_MAX) then (invalid_info, m)
  else
    let time_diff := elapsed_ms current_stats (_last_stats m) in
    if time_diff <? 100 then (invalid_info, m)
    else
      let seconds := (of_Z time_diff / 1000)%float in
      let rx_diff :=
        counter_diff (rx_bytes current_stats) (rx_bytes (_last_stats m)) in
      let tx_diff :=
        counter_diff (tx_bytes current_stats) (tx_bytes (_last_stats m)) in
      let rx := ((of_Z rx_diff * 8) / (seconds * 1000000))%float in
      let tx := ((of_Z tx_diff * 8) / (seconds * 1000000))%float in
      let total := (rx + tx)%float in
      let usage := ((total / of_Z (_capacity_mbps m)) * 100)%float in
      let usage := if (100 <? usage)%float then 100%float else usage in
      ({| rx_mbps := rx; tx_mbps := tx; total_mbps := total;
          usage_percentage := usage; valid := true |},
       set_last_stats m current_stats).

(** ** LED state manager (led_state_manager.h, led_state_manager.cpp) *)

Inductive led_state_t : Type :=
| UTILIZATION_OFF
| NETDEV_GREEN
| NETDEV_DISK1_BLUE
| ALL_UTILIZATION_RED.

Definition led_state_eqb (a c : led_state_t) : bool :=
  match a, c with
  | UTILIZATION_OFF, UTILIZATION_OFF
  | NETDEV_GREEN, NETDEV_GREEN
  | NETDEV_DISK1_BLUE, NETDEV_DISK1_BLUE
  | ALL_UTILIZATION_RED, ALL_UTILIZATION_RED => true
  | _, _ => false
  end.

Record led_state_manager_t : Type := {
  _current_state : led_state_t;
  _brightness : Z;
  _low_threshold : Z;
  _medium_threshold : Z;
  _high_threshold : Z
}.

(** The constructor, from the four configuration values it copies. *)
Definition led_state_manager (brightness_ low medium high : Z)
  : led_state_manager_t :=
  {| _current_state := UTILIZATION_OFF;
     _brightness := brightness_;
     _low_threshold := low;
     _medium_threshold := medium;
     _high_threshold := high |}.

Definition set_current_state (mgr : led_state_manager_t) (s : led_state_t)
  : led_state_manager_t :=
  {| _current_state := s;
     _brightness := _brightness mgr;
     _low_threshold := _low_threshold mgr;
     _medium_threshold := _medium_threshold mgr;
     _high_threshold := _high_threshold mgr |}.

(** The [uint8_t] thresholds are converted to [double] by the comparison. *)
Definition determine_state_from_usage (mgr : led_state_manager_t)
    (usage : float) : led_state_t :=
  if (usage <? of_Z (_low_threshold mgr))%float then UTILIZATION_OFF
  else if (usage <? of_Z (_medium_threshold mgr))%float then NETDEV_GREEN
  else if (usage <? of_Z (_high_threshold mgr))%float then NETDEV_DISK1_BLUE
  else ALL_UTILIZATION_RED.

(** [(netdev_on, disk1_on, disk2_on, color)] *)
Definition get_target_led_states (state : led_state_t)
  : bool * bool * bool * rgb_color_t :=
  match state with
  | UTILIZATION_OFF => (false, false, false, COLOR_OFF)
  | NETDEV_GREEN => (true, false, false, COLOR_GREEN)
  | NETDEV_DISK1_BLUE => (true, true, false, COLOR_BLUE)
  | ALL_UTILIZATION_RED => (true, true, true, COLOR_RED)
  end.

Section LedStateManager.

Variable _led_controller : i2c_device_t.

(** One of the three "Handle ... LED" blocks of [apply_led_state]: both
    branches clear [success] when the call does not return 0. *)
Definition handle_led (mgr : led_state_manager_t) (id : led_type_t)
    (target_on : bool) (target_color : rgb_color_t) (success : bool)
  : io bool :=
  if target_on then
    result <- set_led_state _led_controller id true target_color
                (_brightness mgr) ;;
    ret (if negb (result =? 0) then false else success)
  else
    result <- turn_off_led _led_controller id ;;
    ret (if negb (result =? 0) then false else success).

Definition apply_led_state (mgr : led_state_manager_t) (state : led_state_t)
  : io bool :=
  let '(target_netdev_on, target_disk1_on, target_disk2_on, target_color) :=
    get_target_led_states state in
  result <- set_led_state _led_controller power true COLOR_WHITE
              (_brightness mgr) ;;
  if negb (result =? 0) then ret false
  else
    usleep 100000 ;;;
    success <- handle_led mgr netdev target_netdev_on target_color true ;;
    usleep 100000 ;;;
    success <- handle_led mgr disk1 target_disk1_on target_color success ;;
    usleep 100000 ;;;
    success <- handle_led mgr disk2 target_disk2_on target_color success ;;
    if negb success then ret false else ret true.

(** The methods that change the manager return it with their result. *)
Definition update_leds (mgr : led_state_manager_t)
    (bandwidth_info : bandwidth_info_t) : io (bool * led_state_manager_t) :=
  if negb (valid bandwidth_info) then ret (false, mgr)
  else
    let new_state :=
      determine_state_from_usage mgr (usage_percentage bandwidth_info) in
    if negb (led_state_eqb new_state (_current_state mgr)) then
      ok <- apply_led_state mgr new_state ;;
      if ok then ret (true, set_current_state mgr new_state)
      else ret (false, mgr)
    else ret (true, mgr).

Definition set_state (mgr : led_state_manager_t) (state : led_state_t)
  : io (bool * led_state_manager_t) :=
  ok <- apply_led_state mgr state ;;
  if ok then ret (true, set_current_state mgr state)
  else ret (false, mgr).

End LedStateManager.

(** ** Notions the statements below are phrased with *)

Definition byte_sum (l : list Z) : Z := fold_right Z.add 0 l.

(** The bytes of a frame that precede its two trailing checksum bytes. *)
Definition payload (frame : list Z) : list Z :=
  firstn (length frame - 2) frame.

(** The big-endian value of the two trailing bytes of a frame. *)
Definition trailer (frame : list Z) : Z :=
  256 * at_ frame (size frame - 2) + at_ frame (size frame - 1).

Definition opt_u8 (o : option Z) : Prop :=
  match o with Some v => is_u8 v | None => True end.

Definition params_u8 (params : params_t) : Prop :=
  let '(p0, p1, p2, p3) := params in
  opt_u8 p0 /\ opt_u8 p1 /\ opt_u8 p2 /\ opt_u8 p3.

(** Devices used to run the code on concrete inputs. *)
Definition healthy_device : i2c_device_t :=
  {| write_block_data := fun _ _ _ => 0;
     read_block_data := fun _ _ _ => [];
     read_byte_data := fun _ _ => 1 |}.

Definition dead_device : i2c_device_t :=
  {| write_block_data := fun _ _ _ => -1;
     read_block_data := fun _ _ _ => [];
     read_byte_data := fun _ _ => 0 |}.

(** Every write succeeds, but the write-ack register reads [ack]. *)
Definition device_with_ack (ack : Z) : i2c_device_t :=
  {| write_block_data := fun _ _ _ => 0;
     read_block_data := fun _ _ _ => [];
     read_byte_data := fun _ _ => ack |}.

(** Writes addressed to [bad] fail with [code], all others succeed. *)
Definition device_failing_on (bad code : Z) : i2c_device_t :=
  {| write_block_data := fun _ command _ => if command =? bad then code else 0;
     read_block_data := fun _ _ _ => [];
     read_byte_data := fun _ _ => 1 |}.

(** The controller call [apply_led_state] makes for one utilization LED. *)
Definition led_call (dev : i2c_device_t) (mgr : led_state_manager_t)
    (id : led_type_t) (target_on : bool) (target_color : rgb_color_t) : io Z :=
  if target_on
  then set_led_state dev id true target_color (_brightness mgr)
  else turn_off_led dev id.

(** Some block write in [evs] is addressed to the LED [id]. *)
Definition attempted (id : led_type_t) (evs : list event) : bool :=
  existsb (fun e => match e with
                    | WriteBlock command _ => command =? led_byte id
                    | _ => false
                    end) evs.

(** A manager with the default thresholds 10/40/80 at full brightness, and
    a valid reading that carries the usage percentage [usage]. *)
Definition default_manager : led_state_manager_t :=
  led_state_manager 255 10 40 80.

Definition reading (usage : float) : bandwidth_info_t :=
  {| rx_mbps := 0; tx_mbps := 0; total_mbps := 0;
     usage_percentage := usage; valid := true |}.

(** The byte delta as the specification words it, over the integers:
    [current - previous] when [current >= previous], and
    [(U64_MAX - previous) + current] otherwise. *)
Definition spec_delta (current previous : Z) : Z :=
  if current >=? previous then current - previous
  else (UINT64_MAX - previous) + current.

(** The rate [get_bandwidth_usage] derives from a byte delta and the
    elapsed milliseconds. *)
Definition mbps_of (delta time_diff : Z) : float :=
  ((of_Z delta * 8) / ((of_Z time_diff / 1000) * 1000000))%float.

(** A sample taken [ms] milliseconds after time 0, and the monitor of a
    2000 Mbps link after [initialize] read its baseline at time 0. *)
Definition sample_at (ms rx tx : Z) : network_stats_t :=
  {| rx_bytes := rx; tx_bytes := tx; timestamp := ms * 1000000 |}.

Definition monitor_at_baseline : bandwidth_monitor_t :=
  snd (initialize (bandwidth_monitor 2000) true (sample_at 0 1000 2000)).

(** ** The order of doubles

    A double that is not a NaN is sent to a triple of integers whose
    lexicographic order is the order of the doubles: the class (-2 for
    -infinity, -1 for negative, 0 for zero, 1 for positive, 2 for
    +infinity), then the exponent and the mantissa, both negated for
    negative numbers. *)
Definition sf_is_nan (f : spec_float) : bool :=
  match f with S754_nan => true | _ => false end.

Definition sf_key (f : spec_float) : Z * Z * Z :=
  match f with
  | S754_zero _ => (0, 0, 0)
  | S754_infinity s => (if s then -2 else 2, 0, 0)
  | S754_nan => (0, 0, 0)
  | S754_finite s m e =>
      if s then (-1, - e, Z.neg m) else (1, e, Z.pos m)
  end.

Definition key_lt (a b : Z * Z * Z) : Prop :=
  let '(ca, ea, ma) := a in
  let '(cb, eb, mb) := b in
  ca < cb \/ (ca = cb /\ (ea < eb \/ (ea = eb /\ ma < mb))).

Definition key_le (a b : Z * Z * Z) : Prop :=
  let '(ca, ea, ma) := a in
  let '(cb, eb, mb) := b in
  ca < cb \/ (ca = cb /\ (ea < eb \/ (ea = eb /\ ma <= mb))).

Definition not_nan (x : float) : Prop := sf_is_nan (Prim2SF x) = false.

Definition fkey (x : float) : Z * Z * Z := sf_key (Prim2SF x).

(** The 256 values of a [uint8_t] with their conversions to [double]. *)
Definition u8_range : list Z := map Z.of_nat (seq 0 256).

Definition u8_doubles : list (Z * float) :=
  map (fun a => (a, of_Z a)) u8_range.

Definition thresholds_monotone_check : bool :=
  let table := u8_doubles in
  forallb (fun p => forallb (fun q => implb (fst p <=? fst q)
                                        (snd p <=? snd q)%float) table) table.

(** A command frame as the setters send it for [id] with opcode [opcode]:
    12 bytes, the id in byte 0, the opcode in byte 5, and a checksum that
    is right for the frame with byte 0 reset to the 0x00 placeholder. *)
Definition setter_frame (id : led_type_t) (opcode : Z) (frame : list Z) : Prop :=
  length frame = 12%nat
  /\ Forall is_u8 frame
  /\ at_ frame 0 = led_byte id
  /\ at_ frame 5 = opcode
  /\ verify_checksum (set_first frame 0) = true.

(** A device whose block reads all return [raw] and whose writes succeed. *)
Definition device_reporting (raw : list Z) : i2c_device_t :=
  {| write_block_data := fun _ _ _ => 0;
     read_block_data := fun _ _ _ => raw;
     read_byte_data := fun _ _ => 1 |}.

(** The four states in the order of the enum, idle first. *)
Definition led_rank (state : led_state_t) : Z :=
  match state with
  | UTILIZATION_OFF => 0
  | NETDEV_GREEN => 1
  | NETDEV_DISK1_BLUE => 2
  | ALL_UTILIZATION_RED => 3
  end.

(** A monitor configured with capacity 0 after [initialize], and the
    reading it produces one second later on an idle link. *)
Definition zero_capacity_monitor : bandwidth_monitor_t :=
  snd (initialize (bandwidth_monitor 0) true (sample_at 0 1000 2000)).

Definition zero_capacity_idle_reading : bandwidth_info_t :=
  fst (get_bandwidth_usage zero_capacity_monitor (sample_at 1000 1000 2000)).

(** ** The service loops (main.cpp)

    [g_running] is cleared by a signal handler at a moment the program
    does not choose; a run is given by what the environment supplies to
    the iterations that take place before the flag is found cleared.  The
    one-second [sleep_for] between iterations and the log output are not
    recorded. *)

(** The loop of [run_normal_mode]: [samples] are the samples that
    [read_network_stats] returns in the successive iterations. *)
Fixpoint normal_loop (dev : i2c_device_t) (samples : list network_stats_t)
    (bandwidth_monitor_ : bandwidth_monitor_t)
    (state_manager : led_state_manager_t) (consecutive_failures : Z)
  : io (bool * bandwidth_monitor_t * led_state_manager_t) :=
  match samples with
  | [] => ret (true, bandwidth_monitor_, state_manager)
  | current :: rest =>
      let '(bandwidth_info, bandwidth_monitor_) :=
        get_bandwidth_usage bandwidth_monitor_ current in
      if valid bandwidth_info then
        updated <- update_leds dev state_manager bandwidth_info ;;
        normal_loop dev rest bandwidth_monitor_ (snd updated) 0
      else
        let consecutive_failures := consecutive_failures + 1 in
        if consecutive_failures >=? 10
        then ret (false, bandwidth_monitor_, state_manager)
        else normal_loop dev rest bandwidth_monitor_ state_manager
               consecutive_failures
  end.

Definition run_normal_mode (dev : i2c_device_t)
    (bandwidth_monitor_ : bandwidth_monitor_t)
    (state_manager : led_state_manager_t)
    (exists_ : bool) (first : network_stats_t) (samples : list network_stats_t)
  : io (bool * bandwidth_monitor_t * led_state_manager_t) :=
  let '(ok, bandwidth_monitor_) :=
    initialize bandwidth_monitor_ exists_ first in
  if negb ok then ret (false, bandwidth_monitor_, state_manager)
  else normal_loop dev samples bandwidth_monitor_ state_manager 0.

(** The usage percentages of [test_states] in [run_testing_mode]. *)
Definition test_usage (current_state : Z) : float :=
  match current_state with
  | 0 => 5
  | 1 => 25
  | 2 => 60
  | _ => 90
  end%float.

Definition fake_bandwidth (usage : float) : bandwidth_info_t :=
  {| rx_mbps := usage * 10;
     tx_mbps := usage * 10;
     total_mbps := usage * 20;
     usage_percentage := usage;
     valid := true |}.

(** The loop of [run_testing_mode], for [iterations] iterations before
    [g_running] is found cleared. *)
Fixpoint testing_loop (dev : i2c_device_t) (iterations : nat)
    (state_manager : led_state_manager_t) (current_state : Z)
  : io (bool * led_state_manager_t) :=
  match iterations with
  | O => ret (true, state_manager)
  | S rest =>
      updated <- update_leds dev state_manager
                   (fake_bandwidth (test_usage current_state)) ;;
      if negb (fst updated) then ret (false, snd updated)
      else testing_loop dev rest (snd updated) ((current_state + 1) mod 4)
  end.

Definition run_testing_mode (dev : i2c_device_t) (iterations : nat)
    (state_manager : led_state_manager_t) : io (bool * led_state_manager_t) :=
  testing_loop dev iterations state_manager 0.

(** Whether each of the readings of a run of [normal_loop] would be
    valid, in order. *)
Fixpoint validity_flags (bandwidth_monitor_ : bandwidth_monitor_t)
    (samples : list network_stats_t) : list bool :=
  match samples with
  | [] => []
  | current :: rest =>
      let '(bandwidth_info, bandwidth_monitor_) :=
        get_bandwidth_usage bandwidth_monitor_ current in
      valid bandwidth_info :: validity_flags bandwidth_monitor_ rest
  end.

Definition ten_invalid_in_a_row (flags : list bool) : Prop :=
  exists i, forall j, (j < 10)%nat -> nth (i + j) flags true = false.

(** The events of a successful [set_led_state] with [on = true], and the
    events of the call [apply_led_state] makes for one LED on a bus whose
    writes all succeed. *)
Definition on_sequence (id : led_type_t) (color : rgb_color_t)
    (brightness_ : Z) : list event :=
  [WriteBlock (led_byte id)
     (command_frame id 2 (Some (r color), Some (g color), Some (b color), None));
   Usleep 10000;
   WriteBlock (led_byte id)
     (command_frame id 1 (Some brightness_, None, None, None));
   Usleep 10000;
   WriteBlock (led_byte id) (command_frame id 3 (Some 1, None, None, None))].

Definition led_sequence (id : led_type_t) (target_on : bool)
    (color : rgb_color_t) (brightness_ : Z) : list event :=
  if target_on then on_sequence id color brightness_
  else [WriteBlock (led_byte id) (command_frame id 3 (Some 0, None, None, None))].

(** ** Configuration file parser (config_parser.h, config_parser.cpp)

    A [std::string] is a list of characters.  The [std::map] of the parser
    is only assigned to and searched, so it is a list of bindings in which
    the most recent binding of a key is the one found. *)
Module ConfigParser.
Import Ascii String.

Definition str : Type := list ascii.

Fixpoint str_eqb (s1 s2 : str) : bool :=
  match s1, s2 with
  | [], [] => true
  | c1 :: r1, c2 :: r2 => (c1 =? c2)%char && str_eqb r1 r2
  | _, _ => false
  end.

(** The characters of the set [" \t\r\n"]. *)
Definition is_trim_char (c : ascii) : bool :=
  (c =? " ")%char || (c =? "009")%char || (c =? "013")%char
  || (c =? "010")%char.

(** [find_first_not_of] and [find_last_not_of] for that set; [None] is
    [npos]. *)
Fixpoint find_first_not_of (s : str) : option nat :=
  match s with
  | [] => None
  | c :: rest =>
      if is_trim_char c then option_map S (find_first_not_of rest)
      else Some 0%nat
  end.

Fixpoint find_last_not_of (s : str) : option nat :=
  match s with
  | [] => None
  | c :: rest =>
      match find_last_not_of rest with
      | Some i => Some (S i)
      | None => if is_trim_char c then None else Some 0%nat
      end
  end.

(** [s.substr(pos, len)] for [pos] inside [s]; a count past the end is
    cut at the end. *)
Definition substr (s : str) (pos len : nat) : str := firstn len (skipn pos s).

(** In [trim] the count is [end - start + 1] in [size_t]; with [end] equal
    to [npos] that wraps to 0 for [start = 0] and to a count past the end
    otherwise (a case that does not arise once [start] was found). *)
Definition trim (s : str) : str :=
  match find_first_not_of s with
  | None => []
  | Some start =>
      match find_last_not_of s with
      | Some end_ => substr s start (end_ - start + 1)
      | None => if (start =? 0)%nat then [] else skipn start s
      end
  end.

Definition config_data : Type := list (str * str).

(** [_config_data.find(key)] *)
Fixpoint find (key : str) (data : config_data) : option str :=
  match data with
  | [] => None
  | (k, v) :: rest => if str_eqb k key then Some v else find key rest
  end.

(** [_config_data[key] = value] *)
Definition assign (key value : str) (data : config_data) : config_data :=
  (key, value) :: data.

Definition front_is (c : ascii) (s : str) : bool :=
  match s with
  | x :: _ => (x =? c)%char
  | [] => false
  end.

Definition back_is (c : ascii) (s : str) : bool := front_is c (rev s).

(** [line.find(c)] *)
Fixpoint find_char (c : ascii) (s : str) : option nat :=
  match s with
  | [] => None
  | x :: rest =>
      if (x =? c)%char then Some 0%nat else option_map S (find_char c rest)
  end.

(** The quote removal of [parse_file]; 034 is the double quote and 039
    the single quote. *)
Definition unquote (value : str) : str :=
  if (2 <=? List.length value)%nat
     && ((front_is "034" value && back_is "034" value)
         || (front_is "039" value && back_is "039" value))
  then substr value 1 (List.length value - 2)
  else value.

(** The body of the [while (std::getline(file, line))] loop, on the map and
    the current section. *)
Definition parse_line (st : config_data * str) (raw_line : str)
  : config_data * str :=
  let '(data, current_section) := st in
  let line := trim raw_line in
  match line with
  | [] => st
  | c :: _ =>
      if (c =? "#")%char || (c =? ";")%char then st
      else if (c =? "[")%char && back_is "]" line then
        (data, trim (substr line 1 (List.length line - 2)))
      else
        match find_char "=" line with
        | Some eq_pos =>
            let key := trim (substr line 0 eq_pos) in
            let value := unquote (trim (skipn (eq_pos + 1) line)) in
            let full_key :=
              match current_section with
              | [] => key
              | _ => current_section ++ "."%char :: key
              end in
            (assign full_key value data, current_section)
        | None => st
        end
  end.

(** [parse_file]: [file] is [None] when the file cannot be opened, and
    otherwise the lines [std::getline] reads.  The map is cleared only
    after the file was opened. *)
Definition parse_file (old : config_data) (file : option (list str))
  : bool * config_data :=
  match file with
  | None => (false, old)
  | Some lines => (true, fst (fold_left parse_line lines ([], [])))
  end.

Definition get_value (data : config_data) (section key default_value : str)
  : str :=
  match find (section ++ "."%char :: key) data with
  | Some v => v
  | None => default_value
  end.

Record ledctl_config_t : Type := {
  interface : str;
  capacity_mbps : Z;
  brightness : Z;
  low_threshold : Z;
  medium_threshold : Z;
  high_threshold : Z;
  log_level : str
}.

Definition lit (s : string) : str := list_ascii_of_string s.

Section NumberParsing.

(** [std::stoi] and [std::stoul] of the C++ library: [None] when they
    throw. *)
Variable stoi : str -> option Z.
Variable stoul : str -> option Z.

(** The three "Parse threshold settings" blocks and the brightness block:
    the value is taken when [stoi] returns a number within [0, max]. *)
Definition parse_bounded (data : config_data) (key : string) (max old : Z)
  : Z :=
  let text := get_value data (lit "leds") (lit key) [] in
  match text with
  | [] => old
  | _ =>
      match stoi text with
      | Some n => if (0 <=? n) && (n <=? max) then to_u8 n else old
      | None => old
      end
  end.

Definition load_config_from_file (old : config_data)
    (file : option (list str)) (config : ledctl_config_t)
  : bool * config_data * ledctl_config_t :=
  let '(ok, data) := parse_file old file in
  if negb ok then (false, data, config)
  else
    let interface_ :=
      get_value data (lit "network") (lit "interface") (interface config) in
    let capacity_str :=
      get_value data (lit "network") (lit "capacity_mbps") [] in
    let log_level_ :=
      get_value data (lit "logging") (lit "level") (log_level config) in
    (true, data,
     {| interface := match interface_ with
                     | [] => interface config
                     | _ => interface_
                     end;
        capacity_mbps :=
          match capacity_str with
          | [] => capacity_mbps config
          | _ => match stoul capacity_str with
                 | Some n => n mod 2 ^ 32
                 | None => capacity_mbps config
                 end
          end;
        brightness := parse_bounded data "brightness" 255 (brightness config);
        low_threshold :=
          parse_bounded data "low_threshold" 100 (low_threshold config);
        medium_threshold :=
          parse_bounded data "medium_threshold" 100 (medium_threshold config);
        high_threshold :=
          parse_bounded data "high_threshold" 100 (high_threshold config);
        log_level := match log_level_ with
                     | [] => log_level config
                     | _ => log_level_
                     end |}).

(** [load_config]: for each of the two paths, whether it exists and what
    opening it gives. *)
Definition load_config (old : config_data)
    (local_exists : bool) (local_file : option (list str))
    (system_exists : bool) (system_file : option (list str))
    (config : ledctl_config_t) : bool * config_data * ledctl_config_t :=
  let try_system (old : config_data) :=
    if system_exists then
      let '(ok, data, loaded) := load_config_from_file old system_file config in
      if ok then (true, data, loaded) else (true, data, config)
    else (true, old, config) in
  if local_exists then
    let '(ok, data, loaded) := load_config_from_file old local_file config in
    if ok then (true, data, loaded) else try_system data
  else try_system old.

End NumberParsing.

(** The lines [create_example_config] writes. *)
Definition example_config : list str :=
  map lit ["[network]"; "interface = eth0"; "capacity_mbps = 2000"; "";
           "[leds]"; "brightness = 255"; "low_threshold = 10";
           "medium_threshold = 40"; "high_threshold = 80"; "";
           "[logging]"; "level = info"]%string.

(** [s] up to its last character that is not a trim character. *)
Definition rstrip (s : str) : str :=
  match find_last_not_of s with
  | Some end_ => firstn (S end_) s
  | None => []
  end.

(** A clean token: not empty, no trim character at either end. *)
Definition clean (s : str) : Prop :=
  exists c front c' rest,
    s = c :: rest /\ s = front ++ [c']
    /\ is_trim_char c = false /\ is_trim_char c' = false.

End ConfigParser.

(** * Checksum codec *)

Lemma sum_loop_acc (data : list Z) :
  forall n acc, sum_loop data n acc = acc + sum_loop data n 0.
Proof.
  induction data as [|x rest IH]; intros [|n] acc; simpl; try lia.
  rewrite (IH n (acc + x)), (IH n x). lia.
Qed.

Lemma sum_loop_byte_sum (data : list Z) :
  forall n, sum_loop data n 0 = byte_sum (firstn n data).
Proof.
  induction data as [|x rest IH]; intros [|n]; simpl; try reflexivity.
  rewrite sum_loop_acc, IH. lia.
Qed.

Lemma compute_checksum_cases (data : list Z) (n : Z) :
  compute_checksum data n = 0
  \/ compute_checksum data n = byte_sum (firstn (Z.to_nat n) data).
Proof.
  unfold compute_checksum.
  destruct ((n <? 2) || (n >? size data)); [left | right].
  - reflexivity.
  - apply sum_loop_byte_sum.
Qed.

Lemma compute_checksum_prefix (data : list Z) (n : Z) :
  2 <= n <= size data ->
  compute_checksum data n = byte_sum (firstn (Z.to_nat n) data).
Proof.
  intros Hn. unfold compute_checksum.
  replace ((n <? 2) || (n >? size data)) with false.
  - apply sum_loop_byte_sum.
  - symmetry. apply orb_false_iff.
    split; [apply Z.ltb_ge | rewrite Z.gtb_ltb; apply Z.ltb_ge]; lia.
Qed.

Lemma size_app (l1 l2 : list Z) : size (l1 ++ l2) = size l1 + size l2.
Proof. unfold size. rewrite length_app. lia. Qed.

Lemma payload_app2 (l : list Z) (x y : Z) : payload (l ++ [x; y]) = l.
Proof.
  unfold payload. rewrite length_app. simpl.
  replace (length l + 2 - 2)%nat with (length l + 0)%nat by lia.
  rewrite firstn_app_2. simpl. apply app_nil_r.
Qed.

Lemma at_app_r (l1 l2 : list Z) (i : Z) :
  size l1 <= i -> at_ (l1 ++ l2) i = at_ l2 (i - size l1).
Proof.
  unfold at_, size. intros Hi.
  rewrite app_nth2 by lia. f_equal. lia.
Qed.

Lemma split_u16 (s : Z) :
  0 <= s < 65536 ->
  Z.land (Z.shiftr s 8) 255 = s / 256 /\ Z.land s 255 = s mod 256.
Proof.
  intros Hs. change 255 with (Z.ones 8).
  rewrite !Z.land_ones, Z.shiftr_div_pow2 by lia.
  change (2 ^ 8) with 256. split; [|reflexivity].
  apply Z.mod_small. split.
  - apply Z.div_pos; lia.
  - apply Z.div_lt_upper_bound; lia.
Qed.

Lemma lor_bytes (lo hi : Z) :
  0 <= lo < 256 -> 0 <= hi -> Z.lor lo (Z.shiftl hi 8) = 256 * hi + lo.
Proof.
  intros Hlo Hhi.
  assert (Hdisj : Z.land lo (Z.shiftl hi 8) = 0).
  { apply Z.bits_inj'. intros n Hn.
    rewrite Z.land_spec, Z.bits_0.
    destruct (Z.ltb_spec n 8) as [Hlt | Hge].
    - rewrite Z.shiftl_spec_low by lia. apply andb_false_r.
    - replace (Z.testbit lo n) with false; [reflexivity|].
      symmetry. apply Z.bits_above_log2; [lia|].
      destruct (Z.eq_dec lo 0) as [-> | Hnz]; [simpl; lia|].
      apply Z.log2_lt_pow2; [lia|].
      apply Z.lt_le_trans with (2 ^ 8); [simpl; lia|].
      apply Z.pow_le_mono_r; lia. }
  rewrite <- Z.lxor_lor, <- Z.add_nocarry_lxor by assumption.
  rewrite Z.shiftl_mul_pow2 by lia. change (2 ^ 8) with 256. lia.
Qed.

Lemma command_data_bytes (command : Z) (params : params_t) :
  is_u8 command -> params_u8 params ->
  let '(p0, p1, p2, p3) := params in
  let s := 161 + command + value_or p0 0 + value_or p1 0
           + value_or p2 0 + value_or p3 0 in
  0 <= s < 65536
  /\ command_data command params =
     [0; 160; 1; 0; 0; command;
      value_or p0 0; value_or p1 0; value_or p2 0; value_or p3 0;
      s / 256; s mod 256].
Proof.
  destruct params as [[[p0 p1] p2] p3].
  intros Hc (H0 & H1 & H2 & H3).
  assert (B : forall o, opt_u8 o -> 0 <= value_or o 0 < 256).
  { intros [v|] Hv; simpl in *; [exact Hv | lia]. }
  apply B in H0, H1, H2, H3. unfold is_u8 in Hc.
  set (s := 161 + command + _ + _ + _ + _).
  assert (Hs : 0 <= s < 65536) by (subst s; lia).
  split; [exact Hs|].
  unfold command_data, append_checksum.
  rewrite compute_checksum_prefix by (unfold size; simpl; lia).
  change (Z.to_nat (size ?l)) with 10%nat.
  unfold byte_sum. cbn [firstn fold_right app].
  match goal with
  | |- context [Z.shiftr ?e 8] => replace e with s by (subst s; lia)
  end.
  destruct (split_u16 s Hs) as [-> ->]. reflexivity.
Qed.

Lemma emitted_snoc {A : Type} (a : A) (h : list event) (e : event) :
  emitted (fun h0 => (a, h0 ++ [e])) h = [e].
Proof.
  unfold emitted. simpl.
  rewrite skipn_app, skipn_all, Nat.sub_diag. reflexivity.
Qed.

Lemma emitted_ret {A : Type} (a : A) (h : list event) : emitted (ret a) h = [].
Proof. unfold emitted, ret. simpl. apply skipn_all. Qed.

(** C2.  A command frame as [_change_status] builds it (the fixed header
    bytes, the opcode, the four parameter bytes with absent ones as 0, then
    the checksum appended by [append_checksum]) is accepted by
    [verify_checksum], for every opcode byte and all parameter bytes. *)
Theorem checksum_round_trip (command : Z) (params : params_t) :
  is_u8 command -> params_u8 params ->
  verify_checksum (command_data command params) = true.
Proof.
  intros Hc Hp.
  pose proof (command_data_bytes command params Hc Hp) as H.
  destruct params as [[[p0 p1] p2] p3].
  destruct H as [Hs ->].
  set (s := 161 + command + _ + _ + _ + _) in *.
  assert (B : forall o, opt_u8 o -> 0 <= value_or o 0 < 256).
  { intros [v|] Hv; simpl in *; [exact Hv | lia]. }
  destruct Hp as (H0 & H1 & H2 & H3).
  apply B in H0, H1, H2, H3. unfold is_u8 in Hc.
  unfold verify_checksum.
  change (size ?l) with 12.
  change (12 <? 2) with false. change (12 - 2) with 10. change (12 - 1) with 11.
  cbv iota zeta.
  rewrite compute_checksum_prefix by (unfold size; simpl; lia).
  unfold byte_sum, at_.
  change (Z.to_nat 10) with 10%nat. change (Z.to_nat 11) with 11%nat.
  cbn [firstn fold_right nth].
  rewrite lor_bytes.
  - match goal with
    | |- context [negb (?e =? 0)] => replace e with s by (subst s; lia)
    end.
    replace (256 * (s / 256) + s mod 256) with s
      by (rewrite <- Z.div_mod; lia).
    rewrite Z.eqb_refl, andb_true_r.
    apply negb_true_iff, Z.eqb_neq. subst s. lia.
  - apply Z.mod_pos_bound. lia.
  - apply Z.div_pos; lia.
Qed.

Lemma checksum_round_trip_witness :
  verify_checksum (command_data 3 (Some 1, None, None, None)) = true.
Proof.
  apply (checksum_round_trip 3 (Some 1, None, None, None)).
  - unfold is_u8. lia.
  - simpl. unfold is_u8. repeat split; lia.
Defined.

(** C3.  A frame whose bytes before the two trailing checksum bytes sum to 0
    is rejected by [verify_checksum] whatever the two trailing bytes are,
    also when they are both 0 and so equal the sum. *)
Theorem zero_sum_rejected (body : list Z) (c_hi c_lo : Z) :
  byte_sum body = 0 ->
  verify_checksum (body ++ [c_hi; c_lo]) = false.
Proof.
  intros Hz. unfold verify_checksum.
  destruct (size (body ++ [c_hi; c_lo]) <? 2); [reflexivity|].
  cbv zeta.
  assert (Hsum : compute_checksum (body ++ [c_hi; c_lo])
                   (size (body ++ [c_hi; c_lo]) - 2) = 0).
  { destruct (compute_checksum_cases (body ++ [c_hi; c_lo])
                (size (body ++ [c_hi; c_lo]) - 2)) as [E | E]; [exact E|].
    rewrite E, size_app.
    replace (Z.to_nat (size body + size [c_hi; c_lo] - 2))
      with (length body + 0)%nat by (unfold size; simpl; lia).
    rewrite firstn_app_2. simpl. rewrite app_nil_r. exact Hz. }
  rewrite Hsum. reflexivity.
Qed.

Lemma zero_sum_rejected_witness :
  verify_checksum ([0; 0; 0; 0; 0; 0; 0; 0; 0] ++ [0; 0]) = false
  /\ verify_checksum ([0; 0; 0; 0; 0; 0; 0; 0; 0] ++ [171; 205]) = false.
Proof.
  split.
  - apply (zero_sum_rejected [0; 0; 0; 0; 0; 0; 0; 0; 0] 0 0). reflexivity.
  - apply (zero_sum_rejected [0; 0; 0; 0; 0; 0; 0; 0; 0] 171 205). reflexivity.
Defined.

(** * Command frames on the bus *)

(** C1 as stated does not hold: the block written for "netdev on" has 12
    bytes, not 11, and its two trailing bytes (0x00, 0xA5) are not the sum
    0xA6 of the ten bytes transmitted before them, because the id byte is
    stored after the checksum was computed. *)
Lemma netdev_on_frame_refutes_layout :
  let frame := command_frame netdev 3 (Some 1, None, None, None) in
  emitted (_change_status healthy_device netdev 3 (Some 1, None, None, None)) []
    = [WriteBlock 1 frame]
  /\ frame = [1; 160; 1; 0; 0; 3; 1; 0; 0; 0; 0; 165]
  /\ length frame <> 11%nat
  /\ trailer frame <> byte_sum (payload frame).
Proof.
  cbv zeta. repeat split; try reflexivity; vm_compute; discriminate.
Qed.

(** C1, amended.  Every command frame handed to the bus has exactly 12
    bytes, [id, 0xA0, 0x01, 0x00, 0x00, opcode, p0, p1, p2, p3, checksum_hi,
    checksum_lo]; the two trailing bytes are the big-endian 16-bit sum of
    the ten bytes before them taken with byte 0 still the 0x00 placeholder,
    that is, the sum of the transmitted bytes before the checksum minus the
    id byte. *)
Theorem change_status_frame (dev : i2c_device_t) (h : list event)
    (id : led_type_t) (command : Z) (params : params_t) :
  is_u8 command -> params_u8 params ->
  let frame := command_frame id command params in
  let '(p0, p1, p2, p3) := params in
  emitted (_change_status dev id command params) h
    = [WriteBlock (led_byte id) frame]
  /\ length frame = 12%nat
  /\ frame = [led_byte id; 160; 1; 0; 0; command;
              value_or p0 0; value_or p1 0; value_or p2 0; value_or p3 0;
              trailer frame / 256; trailer frame mod 256]
  /\ 0 <= trailer frame < 65536
  /\ trailer frame = byte_sum (payload (set_first frame 0))
  /\ trailer frame = byte_sum (payload frame) - led_byte id.
Proof.
  intros Hc Hp. cbv zeta.
  pose proof (command_data_bytes command params Hc Hp) as H.
  destruct params as [[[p0 p1] p2] p3].
  split; [apply emitted_snoc|].
  unfold command_frame. destruct H as [Hs ->].
  set (s := 161 + command + _ + _ + _ + _) in *.
  cbn [set_first length].
  assert (Ht : trailer [led_byte id; 160; 1; 0; 0; command; value_or p0 0;
                        value_or p1 0; value_or p2 0; value_or p3 0;
                        s / 256; s mod 256] = s).
  { unfold trailer, at_. change (size ?l) with 12.
    change (Z.to_nat (12 - 2)) with 10%nat.
    change (Z.to_nat (12 - 1)) with 11%nat.
    cbn [nth]. rewrite <- Z.div_mod; lia. }
  rewrite Ht.
  repeat split; try reflexivity; try lia;
    unfold payload, byte_sum; cbn [length Nat.sub firstn fold_right];
    subst s; lia.
Qed.

(** The receiver-side check applied to a transmitted frame: it accepts
    the frame exactly when the id byte is 0, the power LED. *)
Lemma transmitted_frame_verifies_iff_power (id : led_type_t) (command : Z)
    (params : params_t) :
  is_u8 command -> params_u8 params ->
  verify_checksum (command_frame id command params) = (led_byte id =? 0).
Proof.
  intros Hc Hp.
  pose proof (command_data_bytes command params Hc Hp) as H.
  destruct params as [[[p0 p1] p2] p3].
  unfold command_frame. destruct H as [Hs ->].
  set (s := 161 + command + _ + _ + _ + _) in *.
  assert (B : forall o, opt_u8 o -> 0 <= value_or o 0 < 256).
  { intros [v|] Hv; simpl in *; [exact Hv | lia]. }
  destruct Hp as (H0 & H1 & H2 & H3).
  apply B in H0, H1, H2, H3. unfold is_u8 in Hc.
  cbn [set_first]. unfold verify_checksum.
  change (size ?l) with 12.
  change (12 <? 2) with false. change (12 - 2) with 10. change (12 - 1) with 11.
  cbv iota zeta.
  rewrite compute_checksum_prefix by (unfold size; simpl; lia).
  unfold byte_sum, at_.
  change (Z.to_nat 10) with 10%nat. change (Z.to_nat 11) with 11%nat.
  cbn [firstn fold_right nth].
  rewrite lor_bytes;
    [| apply Z.mod_pos_bound; lia | apply Z.div_pos; lia].
  replace (256 * (s / 256) + s mod 256) with s by (rewrite <- Z.div_mod; lia).
  assert (Hid : 0 <= led_byte id < 10) by (destruct id; simpl; lia).
  match goal with
  | |- context [negb (?e =? 0)] => replace e with (led_byte id + s) by (subst s; lia)
  end.
  destruct (Z.eqb_spec (led_byte id) 0) as [E | E].
  - rewrite E. cbn [Z.add]. rewrite Z.eqb_refl, andb_true_r.
    apply negb_true_iff, Z.eqb_neq. subst s. lia.
  - apply andb_false_iff. right. apply Z.eqb_neq. lia.
Qed.

Lemma change_status_frame_witness :
  emitted (_change_status healthy_device disk1 3 (Some 1, None, None, None)) []
    = [WriteBlock 2 [2; 160; 1; 0; 0; 3; 1; 0; 0; 0; 0; 165]].
Proof.
  assert (Hc : is_u8 3) by (unfold is_u8; lia).
  assert (Hp : params_u8 (Some 1, None, None, None))
    by (simpl; unfold is_u8; repeat split; lia).
  exact (proj1 (change_status_frame healthy_device [] disk1 3
                  (Some 1, None, None, None) Hc Hp)).
Defined.

(** C10.  [set_onoff] with a status byte of 2 or more returns -1 and leaves
    the bus untouched; with status 0 or 1 it performs exactly one block
    write, of the on/off command frame, and returns what the write returns.
    So a frame is produced exactly for the status values 0 and 1. *)
Theorem set_onoff_validates_status (dev : i2c_device_t) (h : list event)
    (id : led_type_t) (status : Z) :
  is_u8 status ->
  (2 <= status -> set_onoff dev id status h = (-1, h))
  /\ (status < 2 ->
      set_onoff dev id status h
      = (write_block_data dev h (led_byte id)
           (command_frame id 3 (Some status, None, None, None)),
         h ++ [WriteBlock (led_byte id)
                 (command_frame id 3 (Some status, None, None, None))]))
  /\ (emitted (set_onoff dev id status) h <> [] <-> status = 0 \/ status = 1).
Proof.
  intros Hu. unfold is_u8 in Hu. unfold set_onoff.
  destruct (Z.geb_spec status 2) as [Hge | Hlt].
  - split; [reflexivity|]. split; [lia|].
    rewrite emitted_ret. split; [congruence | lia].
  - split; [lia|]. split; [reflexivity|].
    assert (E : emitted (_change_status dev id 3 (Some status, None, None, None)) h
                = [WriteBlock (led_byte id)
                     (command_frame id 3 (Some status, None, None, None))])
      by apply emitted_snoc.
    rewrite E. split; [lia | discriminate].
Qed.

Lemma set_onoff_validates_status_witness :
  set_onoff healthy_device netdev 2 [] = (-1, [])
  /\ set_onoff dead_device disk2 255 [Usleep 10000] = (-1, [Usleep 10000])
  /\ set_onoff healthy_device netdev 1 []
     = (0, [WriteBlock 1 [1; 160; 1; 0; 0; 3; 1; 0; 0; 0; 0; 165]]).
Proof.
  assert (H2 : is_u8 2) by (unfold is_u8; lia).
  assert (H255 : is_u8 255) by (unfold is_u8; lia).
  assert (H1 : is_u8 1) by (unfold is_u8; lia).
  split; [|split].
  - apply (proj1 (set_onoff_validates_status healthy_device [] netdev 2 H2)). lia.
  - apply (proj1 (set_onoff_validates_status dead_device [Usleep 10000]
                    disk2 255 H255)). lia.
  - apply (proj1 (proj2 (set_onoff_validates_status healthy_device []
                           netdev 1 H1))). lia.
Defined.

(** * Controller sequencing *)

Lemma turn_off_led_run (dev : i2c_device_t) (id : led_type_t) (h : list event) :
  turn_off_led dev id h
  = (write_block_data dev h (led_byte id)
       (command_frame id 3 (Some 0, None, None, None)),
     h ++ [WriteBlock (led_byte id)
             (command_frame id 3 (Some 0, None, None, None))]).
Proof. reflexivity. Qed.

Lemma lor_if_nonzero (result temp : Z) :
  (if negb (temp =? 0) then Z.lor result temp else result) = Z.lor result temp.
Proof.
  destruct (Z.eqb_spec temp 0) as [-> | _]; simpl.
  - symmetry. apply Z.lor_0_r.
  - reflexivity.
Qed.

(** C9.  [turn_off_all_leds] writes the off command to power, netdev, disk1
    and disk2 in this order, 20 ms apart, whatever the earlier writes
    returned; its result is the bitwise OR of the four return codes, which
    is 0 exactly when all four are 0; and when all four are 0 it waits
    50 ms, reads the write-ack register 0x80 and returns -1 unless the
    register reads 1. *)
Theorem turn_off_all_leds_sequence (dev : i2c_device_t) (h : list event) :
  let off_frame id := command_frame id 3 (Some 0, None, None, None) in
  let off_write id := WriteBlock (led_byte id) (off_frame id) in
  let r0 := write_block_data dev h (led_byte power) (off_frame power) in
  let h1 := h ++ [off_write power; Usleep 20000] in
  let r1 := write_block_data dev h1 (led_byte netdev) (off_frame netdev) in
  let h2 := h1 ++ [off_write netdev; Usleep 20000] in
  let r2 := write_block_data dev h2 (led_byte disk1) (off_frame disk1) in
  let h3 := h2 ++ [off_write disk1; Usleep 20000] in
  let r3 := write_block_data dev h3 (led_byte disk2) (off_frame disk2) in
  let h4 := h3 ++ [off_write disk2] in
  let combined := Z.lor (Z.lor (Z.lor r0 r1) r2) r3 in
  (combined = 0 <-> r0 = 0 /\ r1 = 0 /\ r2 = 0 /\ r3 = 0)
  /\ (combined <> 0 -> turn_off_all_leds dev h = (combined, h4))
  /\ (combined = 0 ->
      turn_off_all_leds dev h
      = (if read_byte_data dev (h4 ++ [Usleep 50000]) 128 =? 1 then 0 else -1,
         h4 ++ [Usleep 50000; ReadByte 128])).
Proof.
  cbv beta zeta.
  set (r0 := write_block_data dev h _ _).
  set (h1 := h ++ [_; Usleep 20000]).
  set (r1 := write_block_data dev h1 _ _).
  set (h2 := h1 ++ [_; Usleep 20000]).
  set (r2 := write_block_data dev h2 _ _).
  set (h3 := h2 ++ [_; Usleep 20000]).
  set (r3 := write_block_data dev h3 _ _).
  set (h4 := h3 ++ [_]).
  set (combined := Z.lor _ r3).
  assert (Hrun : turn_off_all_leds dev h
                 = if combined =? 0
                   then (if negb (read_byte_data dev (h4 ++ [Usleep 50000]) 128
                                  =? 1)
                         then -1 else combined,
                         h4 ++ [Usleep 50000; ReadByte 128])
                   else (combined, h4)).
  { unfold turn_off_all_leds, bind, usleep.
    rewrite turn_off_led_run. fold r0.
    rewrite <- app_assoc. cbn [app]. fold h1.
    rewrite turn_off_led_run. fold r1. rewrite lor_if_nonzero.
    rewrite <- app_assoc. cbn [app]. fold h2.
    rewrite turn_off_led_run. fold r2. rewrite lor_if_nonzero.
    rewrite <- app_assoc. cbn [app]. fold h3.
    rewrite turn_off_led_run. fold r3 h4. rewrite lor_if_nonzero.
    fold combined.
    destruct (combined =? 0); [|reflexivity].
    unfold is_last_modification_successful, bind, i2c_read_byte_data, ret.
    rewrite <- app_assoc. cbn [app].
    destruct (negb _); reflexivity. }
  split; [|split].
  - subst combined. rewrite !Z.lor_eq_0_iff. tauto.
  - intros Hnz. rewrite Hrun.
    destruct (Z.eqb_spec combined 0) as [E | _]; [contradiction | reflexivity].
  - intros Hz. rewrite Hrun, Hz. cbn [Z.eqb].
    destruct (read_byte_data dev _ 128 =? 1); reflexivity.
Qed.

Lemma turn_off_all_leds_sequence_witness :
  fst (turn_off_all_leds (device_with_ack 0) []) = -1
  /\ fst (turn_off_all_leds (device_failing_on 2 (-5)) []) = -5.
Proof.
  split.
  - rewrite (proj2 (proj2 (turn_off_all_leds_sequence (device_with_ack 0) [])));
      reflexivity.
  - rewrite (proj1 (proj2 (turn_off_all_leds_sequence
                             (device_failing_on 2 (-5)) [])));
      [reflexivity | vm_compute; discriminate].
Defined.

(** * LED state manager *)

Lemma led_state_eqb_eq (a c : led_state_t) : led_state_eqb a c = true <-> a = c.
Proof. destruct a, c; simpl; split; congruence. Qed.

Lemma led_state_eqb_refl (a : led_state_t) : led_state_eqb a a = true.
Proof. apply led_state_eqb_eq. reflexivity. Qed.

(** C7 as stated does not hold: when the first apply fails (here every bus
    write is refused), the recorded state stays OFF, and applying the same
    target again writes to the bus a second time. *)
Lemma second_apply_writes_again_after_failure :
  let info := reading 15 in
  let first := update_leds dead_device default_manager info [] in
  let second := update_leds dead_device (snd (fst first)) info (snd first) in
  determine_state_from_usage default_manager 15 = NETDEV_GREEN
  /\ fst (fst first) = false
  /\ emitted (update_leds dead_device (snd (fst first)) info) (snd first)
     = [WriteBlock 0 [0; 160; 1; 0; 0; 2; 255; 255; 255; 0; 3; 160]]
  /\ snd second <> snd first.
Proof.
  cbv zeta. repeat split; try (vm_compute; reflexivity).
  vm_compute. discriminate.
Qed.

(** C7, amended.  When the state computed from a valid reading equals the
    recorded current state, [update_leds] returns success at once and adds
    nothing to the history: no controller call, no bus traffic, no delay.
    Applying the same target twice in a row therefore touches the bus only
    in the first call, provided the first call succeeded. *)
Theorem update_leds_idempotent (dev : i2c_device_t)
    (mgr : led_state_manager_t) (info : bandwidth_info_t) (h : list event) :
  valid info = true ->
  (determine_state_from_usage mgr (usage_percentage info) = _current_state mgr ->
   update_leds dev mgr info h = ((true, mgr), h))
  /\ (forall mgr' h' info',
        update_leds dev mgr info h = ((true, mgr'), h') ->
        valid info' = true ->
        determine_state_from_usage mgr (usage_percentage info')
        = determine_state_from_usage mgr (usage_percentage info) ->
        update_leds dev mgr' info' h' = ((true, mgr'), h')
        /\ emitted (update_leds dev mgr' info') h' = []).
Proof.
  intros Hv.
  assert (Hsame : forall m i k, valid i = true ->
            determine_state_from_usage m (usage_percentage i) = _current_state m ->
            update_leds dev m i k = ((true, m), k)).
  { intros m i k Hi Heq. unfold update_leds.
    rewrite Hi, Heq, led_state_eqb_refl. reflexivity. }
  split; [apply Hsame; exact Hv|].
  intros mgr' h' info' Hrun Hv' Hsame_state.
  assert (Hcur : determine_state_from_usage mgr' (usage_percentage info')
                 = _current_state mgr').
  { unfold update_leds in Hrun. rewrite Hv in Hrun. cbn [negb] in Hrun.
    destruct (led_state_eqb _ (_current_state mgr)) eqn:Heq;
      cbn [negb] in Hrun.
    - apply led_state_eqb_eq in Heq.
      unfold ret in Hrun. injection Hrun as <- _.
      rewrite <- Heq. exact Hsame_state.
    - unfold bind in Hrun.
      destruct (apply_led_state dev mgr _ h) as [[|] k]; unfold ret in Hrun;
        [|discriminate].
      injection Hrun as <- _. exact Hsame_state. }
  pose proof (Hsame mgr' info' h' Hv' Hcur) as E.
  split; [exact E|].
  unfold emitted. rewrite E. cbn [snd]. apply skipn_all.
Qed.

Lemma update_leds_idempotent_witness :
  let first := update_leds healthy_device default_manager (reading 15) [] in
  fst (fst first) = true
  /\ update_leds healthy_device (snd (fst first)) (reading 15) (snd first)
     = ((true, snd (fst first)), snd first).
Proof.
  cbv zeta. split; [reflexivity|].
  refine (proj1 (proj2 (update_leds_idempotent healthy_device default_manager
                          (reading 15) [] eq_refl)
                   _ _ (reading 15) _ eq_refl eq_refl)).
  reflexivity.
Defined.

Lemma led_call_extends (dev : i2c_device_t) (mgr : led_state_manager_t)
    (id : led_type_t) (target_on : bool) (color : rgb_color_t) (h : list event) :
  exists frame rest,
    snd (led_call dev mgr id target_on color h)
    = h ++ WriteBlock (led_byte id) frame :: rest.
Proof.
  unfold led_call. destruct target_on.
  - unfold set_led_state, bind, set_rgb, set_brightness, set_onoff,
      _change_status, i2c_write_block_data, usleep, ret.
    cbn [negb]. change (1 >=? 2) with false. cbv iota.
    repeat match goal with
           | |- context [if negb (?c =? 0) then _ else _] =>
               destruct (negb (c =? 0))
           end;
      cbn [snd]; rewrite <- ?app_assoc; cbn [app]; eauto.
  - rewrite turn_off_led_run. cbn [snd]. eauto.
Qed.

Lemma handle_led_run (dev : i2c_device_t) (mgr : led_state_manager_t)
    (id : led_type_t) (target_on : bool) (color : rgb_color_t)
    (success : bool) (h : list event) :
  handle_led dev mgr id target_on color success h
  = ((fst (led_call dev mgr id target_on color h) =? 0) && success,
     snd (led_call dev mgr id target_on color h)).
Proof.
  unfold handle_led, led_call.
  destruct target_on; unfold bind, ret;
    match goal with
    | |- context [let '(_, _) := ?m in _] => destruct m as [res k]
    end;
    cbn [fst snd]; destruct (res =? 0); reflexivity.
Qed.

Lemma attempted_app (id : led_type_t) (l1 l2 : list event) :
  attempted id (l1 ++ l2) = attempted id l1 || attempted id l2.
Proof. apply existsb_app. Qed.

Lemma attempted_write (id : led_type_t) (frame : list Z) (rest : list event) :
  attempted id (WriteBlock (led_byte id) frame :: rest) = true.
Proof. unfold attempted. cbn [existsb]. rewrite Z.eqb_refl. reflexivity. Qed.

(** C8 as stated does not hold: when the power LED step fails, the apply
    returns failure at once and none of netdev, disk1 and disk2 is
    attempted. *)
Lemma power_failure_skips_utilization_leds :
  let run := apply_led_state (device_failing_on 0 (-1)) default_manager
               ALL_UTILIZATION_RED in
  fst (run []) = false
  /\ emitted run []
     = [WriteBlock 0 [0; 160; 1; 0; 0; 2; 255; 255; 255; 0; 3; 160]]
  /\ attempted netdev (emitted run []) = false
  /\ attempted disk1 (emitted run []) = false
  /\ attempted disk2 (emitted run []) = false.
Proof. cbv zeta. repeat split; vm_compute; reflexivity. Qed.

(** C8, amended.  Once the power LED step has succeeded, an apply attempts
    netdev, disk1 and disk2 in this order, 100 ms apart, each whatever the
    earlier ones returned, and reports the conjunction of the three
    outcomes as one boolean; when the power LED step fails it reports
    failure at once.  [update_leds] and [set_state] record the target state
    exactly when the apply reported success, and return the manager
    unchanged whenever they report failure. *)
Theorem apply_led_state_partial_failure (dev : i2c_device_t)
    (mgr : led_state_manager_t) (state : led_state_t) (h : list event) :
  let '(netdev_on, disk1_on, disk2_on, color) := get_target_led_states state in
  let p := set_led_state dev power true COLOR_WHITE (_brightness mgr) h in
  let n := led_call dev mgr netdev netdev_on color (snd p ++ [Usleep 100000]) in
  let d1 := led_call dev mgr disk1 disk1_on color (snd n ++ [Usleep 100000]) in
  let d2 := led_call dev mgr disk2 disk2_on color (snd d1 ++ [Usleep 100000]) in
  (fst p <> 0 -> apply_led_state dev mgr state h = (false, snd p))
  /\ (fst p = 0 ->
      apply_led_state dev mgr state h
      = ((fst n =? 0) && (fst d1 =? 0) && (fst d2 =? 0), snd d2)
      /\ attempted netdev (emitted (apply_led_state dev mgr state) h) = true
      /\ attempted disk1 (emitted (apply_led_state dev mgr state) h) = true
      /\ attempted disk2 (emitted (apply_led_state dev mgr state) h) = true)
  /\ set_state dev mgr state h
     = (let '(ok, h') := apply_led_state dev mgr state h in
        ((ok, if ok then set_current_state mgr state else mgr), h'))
  /\ (forall info,
        valid info = true ->
        determine_state_from_usage mgr (usage_percentage info) = state ->
        state <> _current_state mgr ->
        update_leds dev mgr info h
        = (let '(ok, h') := apply_led_state dev mgr state h in
           ((ok, if ok then set_current_state mgr state else mgr), h')))
  /\ (forall info,
        fst (fst (update_leds dev mgr info h)) = false ->
        snd (fst (update_leds dev mgr info h)) = mgr).
Proof.
  destruct (get_target_led_states state) as [[[netdev_on disk1_on] disk2_on] color]
    eqn:Htarget.
  cbv zeta.
  set (p := set_led_state dev power true COLOR_WHITE (_brightness mgr) h).
  set (n := led_call dev mgr netdev netdev_on color (snd p ++ [Usleep 100000])).
  set (d1 := led_call dev mgr disk1 disk1_on color (snd n ++ [Usleep 100000])).
  set (d2 := led_call dev mgr disk2 disk2_on color (snd d1 ++ [Usleep 100000])).
  assert (Hrun : apply_led_state dev mgr state h
                 = if negb (fst p =? 0) then (false, snd p)
                   else ((fst n =? 0) && (fst d1 =? 0) && (fst d2 =? 0), snd d2)).
  { unfold apply_led_state. rewrite Htarget. unfold bind at 1. fold p.
    destruct p as [rp hp] eqn:Hp. cbn [fst snd] in *.
    destruct (negb (rp =? 0)); [reflexivity|].
    unfold bind, usleep. rewrite handle_led_run. fold n.
    rewrite handle_led_run. fold d1.
    rewrite handle_led_run. fold d2.
    unfold ret. rewrite andb_true_r.
    destruct (fst n =? 0), (fst d1 =? 0), (fst d2 =? 0); reflexivity. }
  split; [|split; [|split; [|split]]].
  - intros Hne. rewrite Hrun.
    destruct (Z.eqb_spec (fst p) 0); [contradiction | reflexivity].
  - intros Hz. rewrite Hrun, Hz. cbn [Z.eqb negb].
    split; [reflexivity|].
    assert (Hp : exists ep, snd p = h ++ ep).
    { destruct (led_call_extends dev mgr power true COLOR_WHITE h)
        as (f & rest & E).
      exists (WriteBlock (led_byte power) f :: rest). exact E. }
    destruct Hp as (ep & Ep).
    destruct (led_call_extends dev mgr netdev netdev_on color
                (snd p ++ [Usleep 100000])) as (fn & restn & En).
    destruct (led_call_extends dev mgr disk1 disk1_on color
                (snd n ++ [Usleep 100000])) as (f1 & rest1 & E1).
    destruct (led_call_extends dev mgr disk2 disk2_on color
                (snd d1 ++ [Usleep 100000])) as (f2 & rest2 & E2).
    fold n in En. fold d1 in E1. fold d2 in E2.
    assert (Hem : emitted (apply_led_state dev mgr state) h
                  = ep ++ [Usleep 100000]
                    ++ (WriteBlock (led_byte netdev) fn :: restn)
                    ++ [Usleep 100000]
                    ++ (WriteBlock (led_byte disk1) f1 :: rest1)
                    ++ [Usleep 100000]
                    ++ (WriteBlock (led_byte disk2) f2 :: rest2)).
    { unfold emitted. rewrite Hrun, Hz. cbn [Z.eqb negb snd].
      rewrite E2, E1, En, Ep. rewrite <- !app_assoc.
      rewrite skipn_app, skipn_all, Nat.sub_diag. reflexivity. }
    rewrite Hem. rewrite !attempted_app, !attempted_write.
    repeat split; repeat rewrite ?orb_true_r, ?orb_true_l; reflexivity.
  - unfold set_state, bind, ret.
    destruct (apply_led_state dev mgr state h) as [[|] k]; reflexivity.
  - intros info Hv Hst Hneq. unfold update_leds. rewrite Hv, Hst. cbn [negb].
    replace (led_state_eqb state (_current_state mgr)) with false.
    + cbn [negb]. unfold bind, ret.
      destruct (apply_led_state dev mgr state h) as [[|] k]; reflexivity.
    + symmetry. apply not_true_is_false. intros E.
      apply led_state_eqb_eq in E. contradiction.
  - intros info. unfold update_leds, bind, ret.
    destruct (negb (valid info)); [reflexivity|].
    destruct (negb (led_state_eqb _ _)); [|reflexivity].
    match goal with
    | |- context [let '(_, _) := ?m in _] => destruct m as [[|] k]
    end; cbn [fst snd]; [discriminate | reflexivity].
Qed.

Lemma apply_led_state_partial_failure_witness :
  fst (apply_led_state (device_failing_on 1 (-1)) default_manager
         NETDEV_GREEN []) = false
  /\ attempted disk1
       (emitted (apply_led_state (device_failing_on 1 (-1)) default_manager
                   NETDEV_GREEN) []) = true
  /\ attempted disk2
       (emitted (apply_led_state (device_failing_on 1 (-1)) default_manager
                   NETDEV_GREEN) []) = true
  /\ snd (fst (update_leds (device_failing_on 1 (-1)) default_manager
                 (reading 15) [])) = default_manager.
Proof.
  pose proof (apply_led_state_partial_failure (device_failing_on 1 (-1))
                default_manager NETDEV_GREEN []) as H.
  cbv beta iota zeta delta [get_target_led_states] in H.
  destruct H as (_ & Hall & _ & _ & Hkeep).
  destruct (Hall eq_refl) as (Hres & _ & Hd1 & Hd2).
  split; [rewrite Hres; reflexivity|].
  split; [exact Hd1|]. split; [exact Hd2|].
  apply Hkeep. reflexivity.
Defined.

(** * Bandwidth sampler *)

Lemma counter_diff_spec_delta (current last : Z) :
  is_u64 current -> is_u64 last ->
  counter_diff current last = spec_delta current last
  /\ is_u64 (counter_diff current last).
Proof.
  unfold is_u64, counter_diff, spec_delta, to_u64, UINT64_MAX.
  intros Hc Hl.
  destruct (Z.geb_spec current last) as [Hge | Hlt].
  - rewrite Z.mod_small by lia. lia.
  - rewrite (Z.mod_small (2 ^ 64 - 1 - last)) by lia.
    rewrite Z.mod_small by lia. lia.
Qed.

(** C4.  In [get_bandwidth_usage] the byte delta of each counter is
    [current - previous] when [current >= previous] and
    [(U64_MAX - previous) + current] otherwise, with no wrap of the 64-bit
    arithmetic, and both rates of a valid reading are computed from these
    deltas; for previous = 2^64 - 1 - 50 and current = 10 the delta is 60. *)
Theorem wraparound_safe_delta (m : bandwidth_monitor_t) (s : network_stats_t) :
  is_u64 (rx_bytes s) -> is_u64 (tx_bytes s) ->
  is_u64 (rx_bytes (_last_stats m)) -> is_u64 (tx_bytes (_last_stats m)) ->
  counter_diff (rx_bytes s) (rx_bytes (_last_stats m))
  = spec_delta (rx_bytes s) (rx_bytes (_last_stats m))
  /\ counter_diff (tx_bytes s) (tx_bytes (_last_stats m))
     = spec_delta (tx_bytes s) (tx_bytes (_last_stats m))
  /\ (valid (fst (get_bandwidth_usage m s)) = true ->
      rx_mbps (fst (get_bandwidth_usage m s))
      = mbps_of (spec_delta (rx_bytes s) (rx_bytes (_last_stats m)))
          (elapsed_ms s (_last_stats m))
      /\ tx_mbps (fst (get_bandwidth_usage m s))
         = mbps_of (spec_delta (tx_bytes s) (tx_bytes (_last_stats m)))
             (elapsed_ms s (_last_stats m)))
  /\ counter_diff 10 (2 ^ 64 - 1 - 50) = 60.
Proof.
  intros Hrx Htx Hlrx Hltx.
  destruct (counter_diff_spec_delta _ _ Hrx Hlrx) as [Erx _].
  destruct (counter_diff_spec_delta _ _ Htx Hltx) as [Etx _].
  split; [exact Erx|]. split; [exact Etx|]. split; [|reflexivity].
  unfold get_bandwidth_usage.
  destruct (negb (_initialized m)); [discriminate|].
  destruct (_ || _); [discriminate|].
  destruct (elapsed_ms s (_last_stats m) <? 100); [discriminate|].
  cbn [fst rx_mbps tx_mbps]. intros _.
  rewrite Erx, Etx. split; reflexivity.
Qed.

Lemma wraparound_safe_delta_witness :
  counter_diff 10 (2 ^ 64 - 1 - 50) = spec_delta 10 (2 ^ 64 - 1 - 50)
  /\ rx_mbps (fst (get_bandwidth_usage monitor_at_baseline
                     (sample_at 1000 126000 127000))) = 1%float.
Proof.
  assert (U : forall z, 0 <= z <= 2 ^ 64 - 1 -> is_u64 z)
    by (intros z Hz; exact Hz).
  split.
  - refine (proj1 (wraparound_safe_delta
                     {| _capacity_mbps := 2000;
                        _last_stats := sample_at 0 (2 ^ 64 - 1 - 50) 0;
                        _initialized := true |}
                     (sample_at 1000 10 0) _ _ _ _));
      apply U; vm_compute; split; discriminate.
  - assert (H : is_u64 126000 /\ is_u64 127000 /\ is_u64 1000 /\ is_u64 2000)
      by (repeat split; vm_compute; discriminate).
    destruct H as (H1 & H2 & H3 & H4).
    rewrite (proj1 (proj1 (proj2 (proj2 (wraparound_safe_delta
               monitor_at_baseline (sample_at 1000 126000 127000)
               H1 H2 H3 H4))) eq_refl)).
    vm_compute. reflexivity.
Defined.

(** C5 as stated does not hold: a call made 50 ms after the baseline, and a
    call whose counters are unreadable, return an invalid reading and keep
    the old baseline; the next call then measures from that old baseline
    (8000 bytes over 150 ms), not from the sample in between. *)
Lemma invalid_call_keeps_baseline :
  let early := sample_at 50 5000 6000 in
  let late := sample_at 150 9000 6000 in
  let after_early := snd (get_bandwidth_usage monitor_at_baseline early) in
  valid (fst (get_bandwidth_usage monitor_at_baseline early)) = false
  /\ _last_stats after_early = sample_at 0 1000 2000
  /\ _last_stats after_early <> early
  /\ _last_stats (snd (get_bandwidth_usage monitor_at_baseline
                         (unreadable 500000000)))
     = sample_at 0 1000 2000
  /\ rx_mbps (fst (get_bandwidth_usage after_early late)) = mbps_of 8000 150
  /\ rx_mbps (fst (get_bandwidth_usage after_early late)) <> mbps_of 4000 100.
Proof.
  cbv zeta. repeat split; try (vm_compute; reflexivity);
    vm_compute; discriminate.
Qed.

(** C5, amended.  A call to [get_bandwidth_usage] replaces the stored
    baseline with the sample it just read exactly when it returns a valid
    reading, that is, when the monitor is initialised, both counters were
    readable and at least 100 ms have elapsed since the baseline; a call
    that returns an invalid reading leaves the monitor, baseline included,
    unchanged. *)
Theorem baseline_replaced_iff_valid (m : bandwidth_monitor_t)
    (s : network_stats_t) :
  let r := get_bandwidth_usage m s in
  (valid (fst r) = true <->
   _initialized m = true /\ readable s = true
   /\ 100 <= elapsed_ms s (_last_stats m))
  /\ (valid (fst r) = true -> snd r = set_last_stats m s)
  /\ (valid (fst r) = false -> snd r = m).
Proof.
  cbv zeta. unfold get_bandwidth_usage, readable.
  destruct (_initialized m); cbn [negb].
  2: { cbn. repeat split; try discriminate; intros (H & _); discriminate H. }
  destruct (rx_bytes s =? UINT64_MAX); cbn [orb negb andb].
  { cbn. repeat split; try discriminate; intros (_ & H & _); discriminate H. }
  destruct (tx_bytes s =? UINT64_MAX); cbn [orb negb andb].
  { cbn. repeat split; try discriminate; intros (_ & H & _); discriminate H. }
  destruct (Z.ltb_spec (elapsed_ms s (_last_stats m)) 100) as [Hlt | Hge].
  - cbn. repeat split; try discriminate. intros (_ & _ & H). lia.
  - cbn [fst snd valid]. repeat split; try discriminate; auto.
Qed.

Lemma baseline_replaced_iff_valid_witness :
  _last_stats (snd (get_bandwidth_usage monitor_at_baseline
                      (sample_at 1000 126000 127000)))
  = sample_at 1000 126000 127000
  /\ snd (get_bandwidth_usage monitor_at_baseline (sample_at 50 5000 6000))
     = monitor_at_baseline.
Proof.
  split.
  - rewrite (proj1 (proj2 (baseline_replaced_iff_valid monitor_at_baseline
                             (sample_at 1000 126000 127000))) eq_refl).
    reflexivity.
  - exact (proj2 (proj2 (baseline_replaced_iff_valid monitor_at_baseline
                           (sample_at 50 5000 6000))) eq_refl).
Defined.

(** * State classifier *)

Lemma SFcompare_key (x y : spec_float) :
  sf_is_nan x = false -> sf_is_nan y = false ->
  (SFcompare x y = Some Lt <-> key_lt (sf_key x) (sf_key y))
  /\ (SFcompare x y = Some Eq <-> sf_key x = sf_key y)
  /\ (exists c, SFcompare x y = Some c).
Proof.
  destruct x as [sx|sx| |sx mx ex], y as [sy|sy| |sy my ey];
    try discriminate; intros _ _; cbn [SFcompare sf_key];
    try destruct sx; try destruct sy; cbn [key_lt];
    try change (PosDef.Pos.compare_cont Eq mx my) with (Pos.compare mx my);
    try (destruct (Z.compare_spec ex ey) as [He | He | He];
         destruct (Pos.compare_spec mx my) as [Hm | Hm | Hm]; cbn [CompOpp]);
    (split; [|split];
     [split; intros H | split; intros H | eexists; reflexivity]);
    try reflexivity; try discriminate H; try lia;
    try (subst; reflexivity);
    try (exfalso; injection H; intros; lia).
Qed.

Lemma SFltb_key (x y : spec_float) :
  sf_is_nan x = false -> sf_is_nan y = false ->
  (SFltb x y = true <-> key_lt (sf_key x) (sf_key y)).
Proof.
  intros Hx Hy. destruct (SFcompare_key x y Hx Hy) as (Hlt & _ & _).
  rewrite <- Hlt. unfold SFltb.
  destruct (SFcompare x y) as [[| |]|]; split; congruence.
Qed.

Lemma SFleb_key (x y : spec_float) :
  sf_is_nan x = false -> sf_is_nan y = false ->
  (SFleb x y = true <-> key_le (sf_key x) (sf_key y)).
Proof.
  intros Hx Hy. destruct (SFcompare_key x y Hx Hy) as (Hlt & Heq & c & Hc).
  unfold SFleb. unfold key_lt in Hlt. unfold key_le.
  destruct (sf_key x) as [[cx ex] mx], (sf_key y) as [[cy ey] my].
  rewrite Hc in *. destruct c; split; intros H; try reflexivity.
  - assert (E : (cx, ex, mx) = (cy, ey, my)) by (apply Heq; reflexivity).
    injection E; intros; lia.
  - assert (E : cx < cy \/ cx = cy /\ (ex < ey \/ ex = ey /\ mx < my))
      by (apply Hlt; reflexivity).
    lia.
  - discriminate.
  - exfalso.
    assert (Hn1 : ~ (cx < cy \/ cx = cy /\ (ex < ey \/ ex = ey /\ mx < my)))
      by (intros K; apply Hlt in K; discriminate).
    assert (Hn2 : (cx, ex, mx) <> (cy, ey, my))
      by (intros K; apply Heq in K; discriminate).
    apply Hn2. f_equal; [f_equal|]; lia.
Qed.

Lemma SFleb_not_nan (x y : spec_float) :
  SFleb x y = true -> sf_is_nan x = false /\ sf_is_nan y = false.
Proof.
  unfold SFleb. destruct x, y; cbn; try discriminate; auto.
Qed.

Lemma leb_not_nan (x y : float) :
  (x <=? y)%float = true -> not_nan x /\ not_nan y.
Proof. rewrite leb_spec. apply SFleb_not_nan. Qed.

Lemma ltb_reflect (x y : float) :
  not_nan x -> not_nan y ->
  ((x <? y)%float = true -> key_lt (fkey x) (fkey y))
  /\ ((x <? y)%float = false -> ~ key_lt (fkey x) (fkey y)).
Proof.
  intros Hx Hy. rewrite ltb_spec.
  pose proof (SFltb_key _ _ Hx Hy) as K. unfold fkey.
  destruct (SFltb (Prim2SF x) (Prim2SF y)); split; intros E; try discriminate.
  - apply K. reflexivity.
  - intros L. apply K in L. discriminate.
Qed.

Lemma leb_reflect (x y : float) :
  not_nan x -> not_nan y ->
  ((x <=? y)%float = true <-> key_le (fkey x) (fkey y)).
Proof. intros Hx Hy. rewrite leb_spec. apply SFleb_key; assumption. Qed.

Lemma in_u8_doubles (a : Z) : 0 <= a < 256 -> In (a, of_Z a) u8_doubles.
Proof.
  intros Ha. unfold u8_doubles, u8_range. rewrite map_map.
  apply in_map_iff. exists (Z.to_nat a).
  split; [rewrite Z2Nat.id by lia; reflexivity|]. apply in_seq. lia.
Qed.

Lemma of_Z_monotone (a b : Z) :
  0 <= a < 256 -> 0 <= b < 256 -> a <= b ->
  (of_Z a <=? of_Z b)%float = true.
Proof.
  intros Ha Hb Hab.
  assert (C : thresholds_monotone_check = true) by (vm_compute; reflexivity).
  unfold thresholds_monotone_check in C. cbv zeta in C.
  rewrite forallb_forall in C. specialize (C _ (in_u8_doubles a Ha)).
  rewrite forallb_forall in C. specialize (C _ (in_u8_doubles b Hb)).
  cbn [fst snd] in C.
  replace (a <=? b) with true in C by (symmetry; apply Z.leb_le; exact Hab).
  exact C.
Qed.

(** C6.  For a usage percentage in [0, 100] and thresholds
    low <= medium <= high, [determine_state_from_usage] returns OFF exactly
    on [0, low), LOW exactly on [low, medium), MEDIUM exactly on
    [medium, high) and HIGH exactly on [high, 100]; with the thresholds
    10/40/80 it sends 9.99 to OFF, 10.0 and 39.99 to LOW, 40.0 and 79.99 to
    MEDIUM, 80.0 and 100.0 to HIGH. *)
Theorem determine_state_bands :
  (forall (mgr : led_state_manager_t) (usage : float),
     let low := _low_threshold mgr in
     let medium := _medium_threshold mgr in
     let high := _high_threshold mgr in
     let state := determine_state_from_usage mgr usage in
     is_u8 low -> is_u8 medium -> is_u8 high ->
     low <= medium <= high ->
     (0 <=? usage)%float = true -> (usage <=? 100)%float = true ->
     (state = UTILIZATION_OFF <-> (usage <? of_Z low)%float = true)
     /\ (state = NETDEV_GREEN <->
         (of_Z low <=? usage)%float = true
         /\ (usage <? of_Z medium)%float = true)
     /\ (state = NETDEV_DISK1_BLUE <->
         (of_Z medium <=? usage)%float = true
         /\ (usage <? of_Z high)%float = true)
     /\ (state = ALL_UTILIZATION_RED <-> (of_Z high <=? usage)%float = true))
  /\ determine_state_from_usage default_manager 9.99 = UTILIZATION_OFF
  /\ determine_state_from_usage default_manager 10 = NETDEV_GREEN
  /\ determine_state_from_usage default_manager 39.99 = NETDEV_GREEN
  /\ determine_state_from_usage default_manager 40 = NETDEV_DISK1_BLUE
  /\ determine_state_from_usage default_manager 79.99 = NETDEV_DISK1_BLUE
  /\ determine_state_from_usage default_manager 80 = ALL_UTILIZATION_RED
  /\ determine_state_from_usage default_manager 100 = ALL_UTILIZATION_RED.
Proof.
  split; [|repeat split; vm_compute; reflexivity].
  intros mgr usage. cbv zeta. unfold determine_state_from_usage.
  set (a := of_Z (_low_threshold mgr)).
  set (b := of_Z (_medium_threshold mgr)).
  set (c := of_Z (_high_threshold mgr)).
  intros Hl Hm Hh Hord H0 H100. unfold is_u8 in Hl, Hm, Hh.
  assert (Hab : (a <=? b)%float = true) by (apply of_Z_monotone; lia).
  assert (Hbc : (b <=? c)%float = true) by (apply of_Z_monotone; lia).
  destruct (leb_not_nan _ _ H0) as [_ Nu].
  destruct (leb_not_nan _ _ Hab) as [Na Nb].
  destruct (leb_not_nan _ _ Hbc) as [_ Nc].
  apply (leb_reflect a b Na Nb) in Hab.
  apply (leb_reflect b c Nb Nc) in Hbc.
  destruct (ltb_reflect usage a Nu Na) as [La La'].
  destruct (ltb_reflect usage b Nu Nb) as [Lb Lb'].
  destruct (ltb_reflect usage c Nu Nc) as [Lc Lc'].
  rewrite (leb_reflect a usage Na Nu), (leb_reflect b usage Nb Nu),
    (leb_reflect c usage Nc Nu).
  unfold key_lt, key_le in *.
  destruct (fkey usage) as [[cu eu] mu], (fkey a) as [[ca ea] ma],
    (fkey b) as [[cb eb] mb], (fkey c) as [[cc ec] mc].
  destruct (usage <? a)%float;
    [specialize (La eq_refl); clear La' | specialize (La' eq_refl); clear La];
    (destruct (usage <? b)%float;
     [specialize (Lb eq_refl); clear Lb' | specialize (Lb' eq_refl); clear Lb]);
    (destruct (usage <? c)%float;
     [specialize (Lc eq_refl); clear Lc' | specialize (Lc' eq_refl); clear Lc]);
    repeat split; intros; try discriminate; try reflexivity; try lia.
Qed.

Lemma determine_state_bands_witness :
  (of_Z 10 <=? 39.99)%float = true /\ (39.99 <? of_Z 40)%float = true.
Proof.
  assert (U : forall z, 0 <= z < 256 -> is_u8 z) by (intros z Hz; exact Hz).
  refine (proj1 (proj1 (proj2 (proj1 determine_state_bands
                                 default_manager 39.99%float
                                 _ _ _ _ eq_refl eq_refl))) eq_refl);
    try apply U; cbn; lia.
Defined.

(** * More on the checksum codec *)

Lemma byte_sum_app (l1 l2 : list Z) :
  byte_sum (l1 ++ l2) = byte_sum l1 + byte_sum l2.
Proof.
  unfold byte_sum. induction l1 as [|x l1 IH]; simpl; [reflexivity | lia].
Qed.

(** [verify_checksum] on a frame split into its body and its two trailing
    bytes, as one boolean expression. *)
Lemma verify_checksum_split (body : list Z) (hi lo : Z) :
  verify_checksum (body ++ [hi; lo])
  = (2 <=? size body)
    && negb (byte_sum body =? 0)
    && (byte_sum body =? Z.lor lo (Z.shiftl hi 8)).
Proof.
  unfold verify_checksum. rewrite size_app. change (size [hi; lo]) with 2.
  assert (Hsz : 0 <= size body) by (unfold size; lia).
  replace (size body + 2 <? 2) with false by (symmetry; apply Z.ltb_ge; lia).
  cbv zeta.
  replace (size body + 2 - 2) with (size body) by lia.
  rewrite !at_app_r by lia.
  replace (size body + 2 - 1 - size body) with 1 by lia.
  replace (size body - size body) with 0 by lia.
  change (at_ [hi; lo] 1) with lo. change (at_ [hi; lo] 0) with hi.
  destruct (Z.leb_spec 2 (size body)) as [Hge | Hlt].
  - rewrite compute_checksum_prefix
      by (rewrite size_app; change (size [hi; lo]) with 2; lia).
    replace (Z.to_nat (size body)) with (length body + 0)%nat
      by (unfold size; lia).
    rewrite firstn_app_2. cbn [firstn]. rewrite app_nil_r. reflexivity.
  - unfold compute_checksum.
    replace (size body <? 2) with true by (symmetry; apply Z.ltb_lt; lia).
    reflexivity.
Qed.

Lemma split_last_two (data : list Z) :
  (2 <= length data)%nat ->
  exists body hi lo, data = body ++ [hi; lo].
Proof.
  intros Hlen.
  destruct (rev data) as [|lo [|hi rbody]] eqn:E.
  - apply (f_equal (@length Z)) in E. rewrite length_rev in E. simpl in E. lia.
  - apply (f_equal (@length Z)) in E. rewrite length_rev in E. simpl in E. lia.
  - exists (rev rbody), hi, lo.
    rewrite <- (rev_involutive data), E. simpl.
    rewrite <- app_assoc. reflexivity.
Qed.

(** X1.  [verify_checksum] never accepts a frame of fewer than four bytes:
    below two bytes it refuses at once, and with two or three bytes the sum
    over fewer than two body bytes is taken as 0 by [compute_checksum] and
    a zero sum is refused. *)
Theorem verify_checksum_needs_four_bytes (data : list Z) :
  verify_checksum data = true -> (4 <= length data)%nat.
Proof.
  intros Hv.
  destruct (Nat.le_gt_cases 2 (length data)) as [H2 | H2].
  - destruct (split_last_two data H2) as (body & hi & lo & ->).
    rewrite verify_checksum_split in Hv.
    apply andb_true_iff in Hv. destruct Hv as [Hv _].
    apply andb_true_iff in Hv. destruct Hv as [Hv _].
    apply Z.leb_le in Hv. unfold size in Hv.
    rewrite length_app. simpl. lia.
  - unfold verify_checksum in Hv.
    replace (size data <? 2) with true in Hv
      by (symmetry; apply Z.ltb_lt; unfold size; lia).
    discriminate.
Qed.

Lemma verify_checksum_needs_four_bytes_witness :
  (4 <= length [7; 9; 0; 16])%nat /\ verify_checksum [5; 0; 5] = false.
Proof.
  split.
  - apply (verify_checksum_needs_four_bytes [7; 9; 0; 16]). reflexivity.
  - reflexivity.
Defined.

(** X2.  For a frame whose two trailing bytes are bytes, [verify_checksum]
    accepts exactly when the body has at least two bytes, the sum of the
    body bytes is not 0, and that sum is the big-endian value of the two
    trailing bytes. *)
Theorem verify_checksum_accepts_iff (body : list Z) (hi lo : Z) :
  is_u8 hi -> is_u8 lo ->
  (verify_checksum (body ++ [hi; lo]) = true <->
   (2 <= length body)%nat
   /\ byte_sum body <> 0
   /\ byte_sum body = 256 * hi + lo).
Proof.
  unfold is_u8. intros Hhi Hlo.
  rewrite verify_checksum_split, lor_bytes by lia.
  rewrite !andb_true_iff, negb_true_iff, Z.leb_le, Z.eqb_neq, Z.eqb_eq.
  unfold size. split; intros ((H1 & H2) & H3) || intros (H1 & H2 & H3);
    repeat split; try assumption; lia.
Qed.

Lemma verify_checksum_accepts_iff_witness :
  verify_checksum ([2; 255; 255; 255; 255; 17; 112; 234; 96] ++ [5; 201])
  = true.
Proof.
  apply (proj2 (verify_checksum_accepts_iff
                  [2; 255; 255; 255; 255; 17; 112; 234; 96] 5 201
                  ltac:(unfold is_u8; lia) ltac:(unfold is_u8; lia))).
  repeat split; simpl; lia.
Defined.

(** X3.  Appending a checksum and verifying: for a vector whose byte sum
    fits 16 bits (any vector of at most 257 bytes), the frame made by
    [append_checksum] is accepted by [verify_checksum] exactly when the
    vector has at least two bytes and they are not all 0. *)
Theorem append_then_verify (data : list Z) :
  0 <= byte_sum data < 65536 ->
  (verify_checksum (append_checksum data) = true <->
   (2 <= length data)%nat /\ byte_sum data <> 0).
Proof.
  intros Hs. unfold append_checksum.
  rewrite verify_checksum_split.
  destruct (Z.leb_spec 2 (size data)) as [Hge | Hlt].
  - rewrite compute_checksum_prefix by lia.
    replace (Z.to_nat (size data)) with (length data) by (unfold size; lia).
    rewrite firstn_all.
    destruct (split_u16 _ Hs) as [-> ->].
    rewrite lor_bytes
      by (try apply Z.mod_pos_bound; try apply Z.div_pos; lia).
    replace (256 * (byte_sum data / 256) + byte_sum data mod 256)
      with (byte_sum data) by (rewrite <- Z.div_mod; lia).
    rewrite Z.eqb_refl, andb_true_r. cbn [andb].
    rewrite negb_true_iff, Z.eqb_neq. unfold size in Hge.
    split; [intros H; split; [lia | exact H] | intros [_ H]; exact H].
  - cbn [andb]. unfold size in Hlt. split; [discriminate | lia].
Qed.

Lemma append_then_verify_witness :
  verify_checksum (append_checksum [0; 7]) = true.
Proof.
  apply (proj2 (append_then_verify [0; 7] ltac:(simpl; lia))).
  split; simpl; lia.
Defined.

(** X4.  The additive checksum detects the change of any one byte of an
    accepted frame: after a body byte is replaced by a different value the
    frame is refused, and so it is after the two trailing bytes are
    replaced by a different pair of bytes. *)
Theorem verify_checksum_detects_change (front back : list Z) (x hi lo : Z) :
  is_u8 hi -> is_u8 lo ->
  verify_checksum ((front ++ x :: back) ++ [hi; lo]) = true ->
  (forall y, y <> x ->
     verify_checksum ((front ++ y :: back) ++ [hi; lo]) = false)
  /\ (forall hi' lo', is_u8 hi' -> is_u8 lo' -> (hi', lo') <> (hi, lo) ->
        verify_checksum ((front ++ x :: back) ++ [hi'; lo']) = false).
Proof.
  unfold is_u8. intros Hhi Hlo Hv.
  rewrite verify_checksum_split, lor_bytes in Hv by lia.
  apply andb_true_iff in Hv. destruct Hv as [_ Hsum].
  apply Z.eqb_eq in Hsum.
  rewrite byte_sum_app in Hsum. cbn [byte_sum fold_right] in Hsum.
  fold (byte_sum back) in Hsum.
  split.
  - intros y Hy. rewrite verify_checksum_split, lor_bytes by lia.
    apply andb_false_iff. right. apply Z.eqb_neq.
    rewrite byte_sum_app. cbn [byte_sum fold_right]. fold (byte_sum back). lia.
  - intros hi' lo' Hhi' Hlo' Hne.
    rewrite verify_checksum_split, lor_bytes by lia.
    apply andb_false_iff. right. apply Z.eqb_neq.
    rewrite byte_sum_app. cbn [byte_sum fold_right]. fold (byte_sum back).
    intros E. apply Hne.
    assert (hi' = hi /\ lo' = lo) as [-> ->] by lia. reflexivity.
Qed.

Lemma verify_checksum_detects_change_witness :
  verify_checksum (([2; 255] ++ 254 :: [255; 255; 17; 112; 234; 96])
                   ++ [5; 201]) = false.
Proof.
  refine (proj1 (verify_checksum_detects_change [2; 255]
                   [255; 255; 17; 112; 234; 96] 255 5 201
                   ltac:(unfold is_u8; lia) ltac:(unfold is_u8; lia) eq_refl)
            254 _).
  lia.
Defined.

(** * More on the controller *)

(** X5.  [set_led_state] with [on = true] writes colour, brightness and the
    on command in this order, 10 ms apart, and stops at the first write
    that does not return 0: it returns that write's code and attempts
    nothing after it (not even the dwell); it returns 0 exactly when all
    three writes returned 0.  With [on = false] it only writes the off
    command. *)
Theorem set_led_state_short_circuits (dev : i2c_device_t) (id : led_type_t)
    (color : rgb_color_t) (brightness_ : Z) (h : list event) :
  let write frame := WriteBlock (led_byte id) frame in
  let rgb := command_frame id 2 (Some (r color), Some (g color), Some (b color), None) in
  let bri := command_frame id 1 (Some brightness_, None, None, None) in
  let on_ := command_frame id 3 (Some 1, None, None, None) in
  let off_ := command_frame id 3 (Some 0, None, None, None) in
  let h1 := h ++ [write rgb] in
  let h2 := h1 ++ [Usleep 10000; write bri] in
  let h3 := h2 ++ [Usleep 10000; write on_] in
  let r1 := write_block_data dev h (led_byte id) rgb in
  let r2 := write_block_data dev (h1 ++ [Usleep 10000]) (led_byte id) bri in
  let r3 := write_block_data dev (h2 ++ [Usleep 10000]) (led_byte id) on_ in
  set_led_state dev id true color brightness_ h
  = (if negb (r1 =? 0) then (r1, h1)
     else if negb (r2 =? 0) then (r2, h2)
     else (r3, h3))
  /\ (fst (set_led_state dev id true color brightness_ h) = 0 <->
      r1 = 0 /\ r2 = 0 /\ r3 = 0)
  /\ set_led_state dev id false color brightness_ h
     = (write_block_data dev h (led_byte id) off_, h ++ [write off_]).
Proof.
  cbv beta zeta.
  set (r1 := write_block_data dev h _ _).
  set (r2 := write_block_data dev ((h ++ [_]) ++ [Usleep 10000]) _ _).
  set (r3 := write_block_data dev (((h ++ [_]) ++ [_; _]) ++ [Usleep 10000]) _ _).
  assert (Hrun : set_led_state dev id true color brightness_ h
                 = (if negb (r1 =? 0)
                    then (r1, h ++ [WriteBlock (led_byte id)
                                      (command_frame id 2
                                         (Some (r color), Some (g color),
                                          Some (b color), None))])
                    else if negb (r2 =? 0)
                         then (r2, (h ++ [WriteBlock (led_byte id)
                                            (command_frame id 2
                                               (Some (r color), Some (g color),
                                                Some (b color), None))])
                                   ++ [Usleep 10000;
                                       WriteBlock (led_byte id)
                                         (command_frame id 1
                                            (Some brightness_, None, None, None))])
                         else (r3, ((h ++ [WriteBlock (led_byte id)
                                             (command_frame id 2
                                                (Some (r color), Some (g color),
                                                 Some (b color), None))])
                                    ++ [Usleep 10000;
                                        WriteBlock (led_byte id)
                                          (command_frame id 1
                                             (Some brightness_, None, None, None))])
                                   ++ [Usleep 10000;
                                       WriteBlock (led_byte id)
                                         (command_frame id 3
                                            (Some 1, None, None, None))]))).
  { unfold set_led_state, bind, set_rgb, set_brightness, set_onoff,
      _change_status, i2c_write_block_data, usleep, ret.
    cbn [negb]. change (1 >=? 2) with false. cbv iota. fold r1.
    destruct (negb (r1 =? 0)); [reflexivity|].
    fold r2. destruct (negb (r2 =? 0)).
    - rewrite <- (app_assoc _ [Usleep 10000]). reflexivity.
    - rewrite <- (app_assoc _ [Usleep 10000] [WriteBlock _ (command_frame id 1 _)]).
      cbn [app]. fold r3.
      rewrite <- (app_assoc _ [Usleep 10000] [WriteBlock _ (command_frame id 3 _)]).
      reflexivity. }
  split; [exact Hrun|]. split; [|reflexivity].
  rewrite Hrun.
  destruct (Z.eqb_spec r1 0) as [E1 | E1]; cbn [negb fst].
  - destruct (Z.eqb_spec r2 0) as [E2 | E2]; cbn [negb fst].
    + split; [intros E3; repeat split; assumption | intros (_ & _ & E3); exact E3].
    + split; [intros E; contradiction | intros (_ & E & _); contradiction].
  - split; [intros E; contradiction | intros (E & _ & _); contradiction].
Qed.

Lemma status_address (id : led_type_t) : to_u8 (129 + led_byte id) = 129 + led_byte id.
Proof. destruct id; reflexivity. Qed.

Lemma mode_byte_cases (z : Z) :
  (0 <= z <= 3
   /\ match z with
      | 0 => Some off | 1 => Some on | 2 => Some blink | 3 => Some breath
      | _ => None
      end
      = Some (match z with 0 => off | 1 => on | 2 => blink | _ => breath end))
  \/ (~ 0 <= z <= 3
      /\ match z with
         | 0 => Some off | 1 => Some on | 2 => Some blink | 3 => Some breath
         | _ => None
         end = None).
Proof.
  destruct z as [|p|p]; [left; split; [lia | reflexivity] | | right; split; [lia | reflexivity]].
  destruct p as [[p|p|]|[p|p|]|];
    try (left; split; [lia | reflexivity]);
    right; split; try reflexivity; lia.
Qed.

(** [get_status] as a function of the block the device returned. *)
Lemma get_status_run (dev : i2c_device_t) (id : led_type_t) (h : list event) :
  let raw := read_block_data dev h (129 + led_byte id) 11 in
  get_status dev id h
  = (if (size raw =? 11) && verify_checksum raw
        && (0 <=? at_ raw 0) && (at_ raw 0 <=? 3)
     then {| is_available := true;
             op_mode := match at_ raw 0 with
                        | 0 => off | 1 => on | 2 => blink | _ => breath
                        end;
             brightness := at_ raw 1;
             color_r := at_ raw 2;
             color_g := at_ raw 3;
             color_b := at_ raw 4;
             t_on := to_u16 (Z.lor (Z.shiftl (at_ raw 7) 8) (at_ raw 8));
             t_off := to_u16 (Z.lor (Z.shiftl (at_ raw 5) 8) (at_ raw 6)
                              - Z.lor (Z.shiftl (at_ raw 7) 8) (at_ raw 8)) |}
     else unavailable,
     h ++ [ReadBlock (129 + led_byte id) 11]).
Proof.
  cbv zeta. unfold get_status, bind, i2c_read_block_data, ret.
  rewrite status_address.
  set (raw := read_block_data dev h (129 + led_byte id) 11).
  destruct (size raw =? 11); cbn [negb orb andb]; [|reflexivity].
  destruct (verify_checksum raw); cbn [negb andb]; [|reflexivity].
  destruct (mode_byte_cases (at_ raw 0)) as [[Hr ->] | [Hr ->]].
  - replace (0 <=? at_ raw 0) with true by (symmetry; apply Z.leb_le; lia).
    replace (at_ raw 0 <=? 3) with true by (symmetry; apply Z.leb_le; lia).
    reflexivity.
  - destruct (Z.leb_spec 0 (at_ raw 0)); cbn [andb]; [|reflexivity].
    replace (at_ raw 0 <=? 3) with false by (symmetry; apply Z.leb_gt; lia).
    reflexivity.
Qed.

(** X6.  [get_status] performs exactly one bus transaction, a block read of
    11 bytes at address 0x81 + id, and never writes.  The snapshot is
    available exactly when the read returned 11 bytes, their checksum
    verifies and the mode byte is 0, 1, 2 or 3; in every other case the
    snapshot returned is the cleared one, never a partly decoded one. *)
Theorem get_status_available_iff (dev : i2c_device_t) (id : led_type_t)
    (h : list event) :
  let raw := read_block_data dev h (129 + led_byte id) 11 in
  let status := fst (get_status dev id h) in
  snd (get_status dev id h) = h ++ [ReadBlock (129 + led_byte id) 11]
  /\ (is_available status = true <->
      size raw = 11 /\ verify_checksum raw = true /\ 0 <= at_ raw 0 <= 3)
  /\ (is_available status = false -> status = unavailable).
Proof.
  cbv zeta. rewrite get_status_run. cbv zeta. cbn [fst snd].
  set (raw := read_block_data dev h (129 + led_byte id) 11).
  split; [reflexivity|].
  destruct (Z.eqb_spec (size raw) 11) as [Hs | Hs]; cbn [andb].
  2: { split; [split; [discriminate | intros (E & _); contradiction] | reflexivity]. }
  destruct (verify_checksum raw); cbn [andb].
  2: { split; [split; [discriminate | intros (_ & E & _); discriminate] | reflexivity]. }
  destruct (Z.leb_spec 0 (at_ raw 0)); cbn [andb].
  2: { split; [split; [discriminate | intros (_ & _ & E); lia] | reflexivity]. }
  destruct (Z.leb_spec (at_ raw 0) 3); cbn [is_available].
  - split; [split; [intros _; repeat split; [assumption | lia | lia] | reflexivity]
           | discriminate].
  - split; [split; [discriminate | intros (_ & _ & E); lia] | reflexivity].
Qed.

Lemma at_is_u8 (data : list Z) (i : Z) : Forall is_u8 data -> is_u8 (at_ data i).
Proof.
  intros Hall. unfold at_.
  destruct (nth_in_or_default (Z.to_nat i) data 0) as [Hin | ->].
  - rewrite Forall_forall in Hall. apply Hall. exact Hin.
  - unfold is_u8. lia.
Qed.

Lemma join_bytes (hi lo : Z) :
  is_u8 hi -> is_u8 lo ->
  Z.lor (Z.shiftl hi 8) lo = 256 * hi + lo /\ 0 <= 256 * hi + lo < 65536.
Proof.
  unfold is_u8. intros Hhi Hlo.
  rewrite Z.lor_comm, lor_bytes by lia. lia.
Qed.

(** X7.  An available snapshot carries the mode selected by byte 0 (0 off,
    1 on, 2 blink, 3 breath), brightness from byte 1, colour from bytes
    2 to 4, [t_on] as the big-endian value of bytes 7 and 8, and [t_off] as
    the big-endian value of bytes 5 and 6 minus [t_on], reduced modulo
    2^16 (so it wraps when bytes 5-6 hold less than bytes 7-8). *)
Theorem get_status_decodes (dev : i2c_device_t) (id : led_type_t)
    (h : list event) :
  let raw := read_block_data dev h (129 + led_byte id) 11 in
  let status := fst (get_status dev id h) in
  Forall is_u8 raw ->
  is_available status = true ->
  op_mode status
  = match at_ raw 0 with 0 => off | 1 => on | 2 => blink | _ => breath end
  /\ brightness status = at_ raw 1
  /\ (color_r status, color_g status, color_b status)
     = (at_ raw 2, at_ raw 3, at_ raw 4)
  /\ t_on status = 256 * at_ raw 7 + at_ raw 8
  /\ t_off status
     = (256 * at_ raw 5 + at_ raw 6 - (256 * at_ raw 7 + at_ raw 8)) mod 65536.
Proof.
  cbv zeta. rewrite get_status_run. cbv zeta. cbn [fst].
  set (raw := read_block_data dev h (129 + led_byte id) 11).
  intros Hall.
  destruct (_ && _); [intros _ | discriminate].
  cbn [op_mode brightness color_r color_g color_b t_on t_off].
  destruct (join_bytes (at_ raw 7) (at_ raw 8)) as [-> Hlow];
    try (apply at_is_u8; exact Hall).
  destruct (join_bytes (at_ raw 5) (at_ raw 6)) as [-> _];
    try (apply at_is_u8; exact Hall).
  unfold to_u16. rewrite (Z.mod_small (256 * at_ raw 7 + at_ raw 8)) by lia.
  repeat split.
Qed.

Lemma get_status_decodes_witness :
  let status :=
    fst (get_status (device_reporting [2; 200; 1; 2; 3; 0; 5; 0; 9; 0; 222])
           disk1 []) in
  is_available status = true
  /\ op_mode status = blink
  /\ t_on status = 9
  /\ t_off status = 65532.
Proof.
  cbv zeta.
  pose proof (get_status_decodes
                (device_reporting [2; 200; 1; 2; 3; 0; 5; 0; 9; 0; 222])
                disk1 []) as H.
  cbv zeta in H.
  assert (Hall : Forall is_u8 [2; 200; 1; 2; 3; 0; 5; 0; 9; 0; 222])
    by (repeat constructor; unfold is_u8; lia).
  destruct (H Hall eq_refl) as (Hm & _ & _ & Hon & Hoff).
  split; [reflexivity|]. split; [exact Hm|]. split; [exact Hon | exact Hoff].
Defined.

Lemma to_u8_is_u8 (x : Z) : is_u8 (to_u8 x).
Proof. unfold is_u8, to_u8. apply Z.mod_pos_bound. lia. Qed.

Lemma command_frame_is_setter_frame (id : led_type_t) (command : Z)
    (params : params_t) :
  is_u8 command -> params_u8 params ->
  setter_frame id command (command_frame id command params).
Proof.
  intros Hc Hp.
  pose proof (transmitted_frame_verifies_iff_power power command params Hc Hp)
    as Hv.
  pose proof (command_data_bytes command params Hc Hp) as H.
  destruct params as [[[p0 p1] p2] p3].
  unfold command_frame in *. destruct H as [Hs E]. rewrite E in *.
  set (s := 161 + command + _ + _ + _ + _) in *.
  assert (B : forall o, opt_u8 o -> is_u8 (value_or o 0)).
  { intros [v|] Hv'; simpl in *; [exact Hv' | unfold is_u8; lia]. }
  destruct Hp as (H0 & H1 & H2 & H3).
  cbn [set_first] in *. unfold setter_frame.
  split; [reflexivity|]. split; [|split; [reflexivity|split; [reflexivity|]]].
  - assert (Hid : is_u8 (led_byte id))
      by (unfold is_u8; destruct id; simpl; lia).
    assert (Hd : is_u8 (s / 256)).
    { unfold is_u8. split; [apply Z.div_pos; lia|].
      apply Z.div_lt_upper_bound; lia. }
    assert (Hm : is_u8 (s mod 256))
      by (unfold is_u8; apply Z.mod_pos_bound; lia).
    assert (C0 : is_u8 0) by (unfold is_u8; lia).
    assert (C1 : is_u8 1) by (unfold is_u8; lia).
    assert (C160 : is_u8 160) by (unfold is_u8; lia).
    apply B in H0, H1, H2, H3.
    repeat (apply Forall_cons; [assumption|]). apply Forall_nil.
  - cbn [set_first]. exact Hv.
Qed.

(** X8.  Each low-level setter performs exactly one block write, addressed
    to the LED, and returns what the write returned.  The frame has 12
    bytes, carries the LED id in byte 0 and the setter's opcode in byte 5
    (1 brightness, 2 colour, 3 on/off, 4 blink, 5 breath), and its checksum
    is right for the frame with byte 0 reset to 0.  For the blink and
    breath setters this holds for all arguments, because every parameter
    is narrowed to a byte. *)
Theorem setters_write_one_frame (dev : i2c_device_t) (id : led_type_t)
    (h : list event) :
  let sends (run : io Z) (opcode : Z) :=
    exists frame,
      run h = (write_block_data dev h (led_byte id) frame,
               h ++ [WriteBlock (led_byte id) frame])
      /\ setter_frame id opcode frame in
  (forall brightness_, is_u8 brightness_ ->
     sends (set_brightness dev id brightness_) 1)
  /\ (forall r_ g_ b_, is_u8 r_ -> is_u8 g_ -> is_u8 b_ ->
        sends (set_rgb dev id r_ g_ b_) 2)
  /\ (forall status, 0 <= status < 2 -> sends (set_onoff dev id status) 3)
  /\ (forall t_on_ t_off_, sends (set_blink dev id t_on_ t_off_) 4)
  /\ (forall t_on_ t_off_, sends (set_breath dev id t_on_ t_off_) 5).
Proof.
  cbv beta zeta.
  assert (U : forall z, 0 <= z < 256 -> is_u8 z) by (intros z Hz; exact Hz).
  split; [|split; [|split; [|split]]].
  - intros br Hbr. eexists. split; [reflexivity|].
    apply command_frame_is_setter_frame; [apply U; lia|].
    simpl. auto.
  - intros r_ g_ b_ Hr Hg Hb. eexists. split; [reflexivity|].
    apply command_frame_is_setter_frame; [apply U; lia|].
    simpl. auto.
  - intros status Hst. unfold set_onoff.
    replace (status >=? 2) with false
      by (symmetry; rewrite Z.geb_leb; apply Z.leb_gt; lia).
    eexists. split; [reflexivity|].
    apply command_frame_is_setter_frame; [apply U; lia|].
    simpl. split; [apply U; lia | auto].
  - intros t_on_ t_off_. eexists. split; [reflexivity|].
    apply command_frame_is_setter_frame; [apply U; lia|].
    simpl. repeat (split; [apply to_u8_is_u8|]). apply to_u8_is_u8.
  - intros t_on_ t_off_. eexists. split; [reflexivity|].
    apply command_frame_is_setter_frame; [apply U; lia|].
    simpl. repeat (split; [apply to_u8_is_u8|]). apply to_u8_is_u8.
Qed.

Lemma blink_params_decode (t_on_ t_off_ : Z) :
  is_u16 t_on_ -> is_u16 t_off_ ->
  let t_hight := to_u16 (t_on_ + t_off_) in
  256 * to_u8 (Z.shiftr t_hight 8) + to_u8 (Z.land t_hight 255) = t_hight
  /\ 256 * to_u8 (Z.shiftr t_on_ 8) + to_u8 (Z.land t_on_ 255) = t_on_
  /\ (t_hight - t_on_) mod 65536 = t_off_.
Proof.
  unfold is_u16. intros Hon Hoff. cbv zeta.
  assert (Hh : 0 <= to_u16 (t_on_ + t_off_) < 65536)
    by (unfold to_u16; apply Z.mod_pos_bound; lia).
  assert (J : forall v, 0 <= v < 65536 ->
            256 * to_u8 (Z.shiftr v 8) + to_u8 (Z.land v 255) = v).
  { intros v Hv. destruct (split_u16 v Hv) as [E1 E2].
    change 255 with (Z.ones 8) in *. rewrite Z.land_ones in * by lia.
    rewrite Z.shiftr_div_pow2 by lia. change (2 ^ 8) with 256 in *.
    unfold to_u8. rewrite (Z.mod_small (v / 256)).
    - rewrite Z.mod_mod by lia. rewrite <- Z.div_mod; lia.
    - split; [apply Z.div_pos; lia | apply Z.div_lt_upper_bound; lia]. }
  split; [apply J; exact Hh|]. split; [apply J; exact Hon|].
  unfold to_u16. rewrite Zminus_mod_idemp_l.
  replace (t_on_ + t_off_ - t_on_) with t_off_ by lia.
  apply Z.mod_small. exact Hoff.
Qed.

(** X9.  The timing encoding of the blink and breath commands and the
    decoding of [get_status] are inverse: when a status frame is available
    and its bytes 5 to 8 are the four parameter bytes of the command frame
    written for [(t_on, t_off)], the snapshot carries exactly [t_on] and
    [t_off], for all 16-bit values, also when [t_on + t_off] wraps the
    16-bit field. *)
Theorem blink_timing_round_trip (dev : i2c_device_t) (command : Z)
    (id : led_type_t) (t_on_ t_off_ : Z) (h h' : list event) (frame : list Z) :
  is_u16 t_on_ -> is_u16 t_off_ ->
  snd (_set_blink_or_breath dev command id t_on_ t_off_ h)
  = h ++ [WriteBlock (led_byte id) frame] ->
  let raw := read_block_data dev h' (129 + led_byte id) 11 in
  let status := fst (get_status dev id h') in
  Forall is_u8 raw ->
  is_available status = true ->
  [at_ raw 5; at_ raw 6; at_ raw 7; at_ raw 8]
  = [at_ frame 6; at_ frame 7; at_ frame 8; at_ frame 9] ->
  t_on status = t_on_ /\ t_off status = t_off_.
Proof.
  intros Hon Hoff Hw. cbv zeta.
  rewrite get_status_run. cbv zeta. cbn [fst].
  set (raw := read_block_data dev h' (129 + led_byte id) 11).
  intros Hall Hav Hbytes.
  destruct (_ && _); [clear Hav | discriminate].
  cbn [t_on t_off].
  unfold _set_blink_or_breath, _change_status, i2c_write_block_data in Hw.
  cbn [snd] in Hw. apply app_inv_head in Hw. injection Hw as <-.
  unfold command_frame, command_data, append_checksum in Hbytes.
  cbn [value_or app set_first] in Hbytes.
  change (at_ (?x0 :: ?x1 :: ?x2 :: ?x3 :: ?x4 :: ?x5 :: ?x6 :: ?l) 6)
    with x6 in Hbytes.
  change (at_ (?x0 :: ?x1 :: ?x2 :: ?x3 :: ?x4 :: ?x5 :: ?x6 :: ?x7 :: ?l) 7)
    with x7 in Hbytes.
  change (at_ (?x0 :: ?x1 :: ?x2 :: ?x3 :: ?x4 :: ?x5 :: ?x6 :: ?x7 :: ?x8 :: ?l) 8)
    with x8 in Hbytes.
  change (at_ (?x0 :: ?x1 :: ?x2 :: ?x3 :: ?x4 :: ?x5 :: ?x6 :: ?x7 :: ?x8
               :: ?x9 :: ?l) 9)
    with x9 in Hbytes.
  injection Hbytes as E5 E6 E7 E8.
  destruct (join_bytes (at_ raw 7) (at_ raw 8)) as [-> Hlow];
    try (apply at_is_u8; exact Hall).
  destruct (join_bytes (at_ raw 5) (at_ raw 6)) as [-> _];
    try (apply at_is_u8; exact Hall).
  rewrite E5, E6, E7, E8 in *.
  destruct (blink_params_decode t_on_ t_off_ Hon Hoff) as (Dh & Dl & Doff).
  rewrite Dh, Dl in *. unfold to_u16 at 1 2.
  rewrite (Z.mod_small t_on_) by exact Hon.
  split; [reflexivity | exact Doff].
Qed.

Lemma blink_timing_round_trip_witness :
  let dev := device_reporting [2; 255; 255; 255; 255; 17; 112; 234; 96; 5; 201] in
  t_on (fst (get_status dev netdev [])) = 60000
  /\ t_off (fst (get_status dev netdev [])) = 10000.
Proof.
  cbv zeta.
  assert (H16 : forall z, 0 <= z < 65536 -> is_u16 z) by (intros z Hz; exact Hz).
  refine (blink_timing_round_trip
            (device_reporting [2; 255; 255; 255; 255; 17; 112; 234; 96; 5; 201])
            4 netdev 60000 10000 [] [] _ _ _ eq_refl _ eq_refl eq_refl);
    try (apply H16; lia).
  repeat constructor; unfold is_u8; lia.
Defined.

(** * More on the classifier *)

Lemma ltb_not_nan (x y : float) :
  (x <? y)%float = true -> not_nan x /\ not_nan y.
Proof.
  rewrite ltb_spec. unfold not_nan, SFltb.
  destruct (Prim2SF x), (Prim2SF y); cbn; try discriminate; auto.
Qed.

Lemma ltb_nan_l (x y : float) :
  sf_is_nan (Prim2SF x) = true -> (x <? y)%float = false.
Proof.
  rewrite ltb_spec. destruct (Prim2SF x); try discriminate. reflexivity.
Qed.

Lemma leb_ltb_trans (x y z : float) :
  (x <=? y)%float = true -> (y <? z)%float = true -> (x <? z)%float = true.
Proof.
  intros Hxy Hyz.
  destruct (leb_not_nan _ _ Hxy) as [Nx Ny].
  destruct (ltb_not_nan _ _ Hyz) as [_ Nz].
  apply (leb_reflect x y Nx Ny) in Hxy.
  apply (ltb_reflect y z Ny Nz) in Hyz.
  destruct (ltb_reflect x z Nx Nz) as [_ Hn].
  destruct (x <? z)%float; [reflexivity | exfalso].
  specialize (Hn eq_refl).
  unfold key_lt, key_le in *.
  destruct (fkey x) as [[cx ex] mx], (fkey y) as [[cy ey] my],
    (fkey z) as [[cz ez] mz].
  lia.
Qed.

Lemma determine_state_rank_monotone (mgr : led_state_manager_t)
    (u1 u2 : float) :
  (u1 <=? u2)%float = true ->
  led_rank (determine_state_from_usage mgr u1)
  <= led_rank (determine_state_from_usage mgr u2).
Proof.
  intros H12. unfold determine_state_from_usage.
  destruct (u2 <? of_Z (_low_threshold mgr))%float eqn:A2.
  { rewrite (leb_ltb_trans _ _ _ H12 A2). reflexivity. }
  destruct (u2 <? of_Z (_medium_threshold mgr))%float eqn:B2.
  { rewrite (leb_ltb_trans _ _ _ H12 B2).
    destruct (u1 <? of_Z (_low_threshold mgr))%float; cbn; lia. }
  destruct (u2 <? of_Z (_high_threshold mgr))%float eqn:C2.
  { rewrite (leb_ltb_trans _ _ _ H12 C2).
    destruct (u1 <? of_Z (_low_threshold mgr))%float,
      (u1 <? of_Z (_medium_threshold mgr))%float; cbn; lia. }
  destruct (u1 <? of_Z (_low_threshold mgr))%float,
    (u1 <? of_Z (_medium_threshold mgr))%float,
    (u1 <? of_Z (_high_threshold mgr))%float; cbn; lia.
Qed.

(** X10.  The display is monotone in the usage, whatever the thresholds
    are (ordered or not): a usage that is not smaller never gets a lower
    state in the order OFF, LOW, MEDIUM, HIGH of the enum, and every
    utilization LED that is lit for the smaller usage is lit for the
    larger one. *)
Theorem classifier_monotone (mgr : led_state_manager_t) (u1 u2 : float) :
  (u1 <=? u2)%float = true ->
  let s1 := determine_state_from_usage mgr u1 in
  let s2 := determine_state_from_usage mgr u2 in
  let lit state := fst (get_target_led_states state) in
  led_rank s1 <= led_rank s2
  /\ (fst (fst (lit s1)) = true -> fst (fst (lit s2)) = true)
  /\ (snd (fst (lit s1)) = true -> snd (fst (lit s2)) = true)
  /\ (snd (lit s1) = true -> snd (lit s2) = true).
Proof.
  intros H12. cbv zeta.
  pose proof (determine_state_rank_monotone mgr u1 u2 H12) as Hrank.
  split; [exact Hrank|].
  destruct (determine_state_from_usage mgr u1),
    (determine_state_from_usage mgr u2);
    cbn in *; repeat split; intros; try reflexivity; try discriminate; lia.
Qed.

Lemma classifier_monotone_witness :
  led_rank (determine_state_from_usage default_manager 39.5)
  <= led_rank (determine_state_from_usage default_manager 40).
Proof.
  apply (proj1 (classifier_monotone default_manager 39.5 40 eq_refl)).
Defined.

(** X11.  A usage percentage that is a NaN is classified as
    ALL_UTILIZATION_RED whatever the thresholds are, because every
    comparison with a NaN is false.  Such a reading arises from the sampler
    itself: with capacity 0 and an idle link the percentage is 0/0. *)
Theorem nan_usage_is_all_red (mgr : led_state_manager_t) (usage : float) :
  sf_is_nan (Prim2SF usage) = true ->
  determine_state_from_usage mgr usage = ALL_UTILIZATION_RED.
Proof.
  intros Hnan. unfold determine_state_from_usage.
  rewrite !(ltb_nan_l usage _ Hnan). reflexivity.
Qed.

Lemma nan_usage_is_all_red_witness :
  valid zero_capacity_idle_reading = true
  /\ determine_state_from_usage default_manager
       (usage_percentage zero_capacity_idle_reading) = ALL_UTILIZATION_RED.
Proof.
  split; [reflexivity|].
  apply (nan_usage_is_all_red default_manager
           (usage_percentage zero_capacity_idle_reading)).
  vm_compute. reflexivity.
Defined.

(** X12.  The classifier does not check the order of its thresholds, and
    an inverted pair empties a band: when medium <= low no usage is ever
    classified NETDEV_GREEN, and when high <= medium none is ever
    classified NETDEV_DISK1_BLUE. *)
Theorem inverted_thresholds_empty_bands (mgr : led_state_manager_t)
    (usage : float) :
  is_u8 (_low_threshold mgr) -> is_u8 (_medium_threshold mgr) ->
  is_u8 (_high_threshold mgr) ->
  (_medium_threshold mgr <= _low_threshold mgr ->
   determine_state_from_usage mgr usage <> NETDEV_GREEN)
  /\ (_high_threshold mgr <= _medium_threshold mgr ->
      determine_state_from_usage mgr usage <> NETDEV_DISK1_BLUE).
Proof.
  unfold determine_state_from_usage, is_u8.
  set (a := of_Z (_low_threshold mgr)).
  set (b := of_Z (_medium_threshold mgr)).
  set (c := of_Z (_high_threshold mgr)).
  intros Hl Hm Hh.
  assert (gap : forall x y, (y <=? x)%float = true ->
            (usage <? x)%float = false -> (usage <? y)%float = true -> False).
  { intros x y Hyx Hx Hy.
    destruct (leb_not_nan _ _ Hyx) as [Ny Nx].
    destruct (ltb_not_nan _ _ Hy) as [Nu _].
    apply (leb_reflect y x Ny Nx) in Hyx.
    apply (ltb_reflect usage x Nu Nx) in Hx.
    apply (ltb_reflect usage y Nu Ny) in Hy.
    unfold key_lt, key_le in *.
    destruct (fkey usage) as [[cu eu] mu], (fkey x) as [[cx ex] mx],
      (fkey y) as [[cy ey] my].
    lia. }
  split; intros Hinv.
  - assert (Hba : (b <=? a)%float = true) by (apply of_Z_monotone; lia).
    destruct (usage <? a)%float eqn:Ea; [discriminate|].
    destruct (usage <? b)%float eqn:Eb.
    + intros _. exact (gap a b Hba Ea Eb).
    + destruct (usage <? c)%float; discriminate.
  - assert (Hcb : (c <=? b)%float = true) by (apply of_Z_monotone; lia).
    destruct (usage <? a)%float; [discriminate|].
    destruct (usage <? b)%float eqn:Eb; [discriminate|].
    destruct (usage <? c)%float eqn:Ec; [|discriminate].
    intros _. exact (gap b c Hcb Eb Ec).
Qed.

Lemma inverted_thresholds_empty_bands_witness :
  determine_state_from_usage (led_state_manager 255 40 10 80) 20
  <> NETDEV_GREEN.
Proof.
  assert (U : forall z, 0 <= z < 256 -> is_u8 z) by (intros z Hz; exact Hz).
  apply (proj1 (inverted_thresholds_empty_bands
                  (led_state_manager 255 40 10 80) 20
                  ltac:(apply U; cbn; lia) ltac:(apply U; cbn; lia)
                  ltac:(apply U; cbn; lia))).
  cbn. lia.
Defined.

(** * More on the bandwidth sampler *)

(** X13.  The byte delta against the true distance of two 64-bit counter
    values: when the counter did not wrap the delta is the distance
    modulo 2^64; when it wrapped (current < previous) the delta is one
    less than that distance, because it is measured from 2^64 - 1 and not
    from 2^64. *)
Theorem counter_diff_against_modular_distance (current last : Z) :
  is_u64 current -> is_u64 last ->
  (last <= current ->
   counter_diff current last = (current - last) mod 2 ^ 64)
  /\ (current < last ->
      counter_diff current last = (current - last) mod 2 ^ 64 - 1).
Proof.
  intros Hc Hl.
  destruct (counter_diff_spec_delta current last Hc Hl) as [-> _].
  unfold is_u64, UINT64_MAX, spec_delta in *.
  split; intros Hord.
  - replace (current >=? last) with true by (symmetry; apply Z.geb_le; lia).
    rewrite Z.mod_small by lia. reflexivity.
  - replace (current >=? last) with false
      by (symmetry; rewrite Z.geb_leb; apply Z.leb_gt; lia).
    cbv iota.
    replace ((current - last) mod 2 ^ 64) with (current - last + 2 ^ 64).
    + unfold UINT64_MAX. lia.
    + symmetry. rewrite <- (Z_mod_plus_full _ 1). apply Z.mod_small. lia.
Qed.

Lemma counter_diff_against_modular_distance_witness :
  counter_diff 10 (2 ^ 64 - 1 - 50) = (10 - (2 ^ 64 - 1 - 50)) mod 2 ^ 64 - 1.
Proof.
  apply (proj2 (counter_diff_against_modular_distance 10 (2 ^ 64 - 1 - 50)
                  ltac:(unfold is_u64, UINT64_MAX; lia)
                  ltac:(unfold is_u64, UINT64_MAX; lia))).
  lia.
Defined.

(** X14.  [initialize] on a new monitor succeeds exactly when the interface
    exists and both counters of the first sample could be read.  After a
    failed [initialize] every [get_bandwidth_usage] returns an invalid
    reading and changes nothing; after a successful one, a readable sample
    taken at least 100 ms after the first is valid and becomes the
    baseline. *)
Theorem initialize_then_sample (capacity_mbps : Z) (exists_ : bool)
    (first s : network_stats_t) :
  let init := initialize (bandwidth_monitor capacity_mbps) exists_ first in
  let m := snd init in
  (fst init = true <-> exists_ = true /\ readable first = true)
  /\ (fst init = false ->
      get_bandwidth_usage m s = (invalid_info, m))
  /\ (fst init = true -> readable s = true -> 100 <= elapsed_ms s first ->
      valid (fst (get_bandwidth_usage m s)) = true
      /\ _last_stats (snd (get_bandwidth_usage m s)) = s
      /\ _capacity_mbps (snd (get_bandwidth_usage m s)) = capacity_mbps).
Proof.
  cbv zeta. unfold initialize.
  destruct exists_; cbn [negb fst snd].
  2: { split; [split; [discriminate | intros [E _]; discriminate]|].
       split; [reflexivity | discriminate]. }
  destruct (readable first) eqn:Hr.
  - split; [split; auto|]. split; [discriminate|].
    intros _ Hs Hel. unfold get_bandwidth_usage.
    cbn [_initialized negb _last_stats _capacity_mbps].
    unfold readable in Hs. apply andb_true_iff in Hs. destruct Hs as [H1 H2].
    apply negb_true_iff in H1, H2. rewrite H1, H2. cbn [orb].
    replace (elapsed_ms s first <? 100) with false
      by (symmetry; apply Z.ltb_ge; lia).
    cbn. auto.
  - split; [split; [discriminate | intros [_ E]; discriminate]|].
    split; [reflexivity | discriminate].
Qed.

Lemma hundred_not_nan : not_nan 100.
Proof. vm_compute. reflexivity. Qed.

(** X15.  The usage percentage of a reading is never greater than 100:
    the comparison [usage > 100] is false for every reading that
    [get_bandwidth_usage] returns, and unless the percentage is a NaN it
    is at most 100. *)
Theorem usage_never_above_100 (m : bandwidth_monitor_t) (s : network_stats_t) :
  let usage := usage_percentage (fst (get_bandwidth_usage m s)) in
  (100 <? usage)%float = false
  /\ (not_nan usage -> (usage <=? 100)%float = true).
Proof.
  cbv zeta.
  assert (Hclamp : (100 <? usage_percentage (fst (get_bandwidth_usage m s)))%float
                   = false).
  { unfold get_bandwidth_usage.
    destruct (negb (_initialized m)); [reflexivity|].
    destruct (_ || _); [reflexivity|].
    destruct (_ <? 100); [reflexivity|].
    cbn [fst usage_percentage].
    match goal with
    | |- context [if (100 <? ?u)%float then _ else _] =>
        destruct (100 <? u)%float eqn:E; [reflexivity | exact E]
    end. }
  split; [exact Hclamp|].
  intros Nu.
  set (u := usage_percentage (fst (get_bandwidth_usage m s))) in *.
  apply (ltb_reflect 100 u hundred_not_nan Nu) in Hclamp.
  apply (leb_reflect u 100 Nu hundred_not_nan).
  unfold key_lt, key_le in *.
  destruct (fkey u) as [[cu eu] mu], (fkey 100) as [[ch eh] mh]. lia.
Qed.

(** * More on the state manager *)

Section WorkingBus.

Variable dev : i2c_device_t.
Hypothesis writes_succeed : forall k command data, write_block_data dev k command data = 0.

Lemma set_led_state_on_working_bus (id : led_type_t) (target_on : bool)
    (color : rgb_color_t) (brightness_ : Z) (h : list event) :
  set_led_state dev id target_on color brightness_ h
  = (0, h ++ led_sequence id target_on color brightness_).
Proof.
  destruct target_on.
  - unfold set_led_state, bind, set_rgb, set_brightness, set_onoff,
      _change_status, i2c_write_block_data, usleep, ret.
    cbn [negb]. change (1 >=? 2) with false. cbv iota.
    repeat (rewrite writes_succeed; cbn [Z.eqb negb]; cbv beta iota).
    rewrite <- !app_assoc. reflexivity.
  - unfold set_led_state. cbn [negb]. rewrite turn_off_led_run.
    rewrite writes_succeed. reflexivity.
Qed.

Lemma led_call_on_working_bus (mgr : led_state_manager_t) (id : led_type_t)
    (target_on : bool) (color : rgb_color_t) (h : list event) :
  led_call dev mgr id target_on color h
  = (0, h ++ led_sequence id target_on color (_brightness mgr)).
Proof.
  unfold led_call. destruct target_on.
  - apply set_led_state_on_working_bus.
  - apply (set_led_state_on_working_bus id false color (_brightness mgr)).
Qed.

Lemma apply_led_state_on_working_bus (mgr : led_state_manager_t)
    (state : led_state_t) (h : list event) :
  apply_led_state dev mgr state h
  = (true,
     let '(netdev_on, disk1_on, disk2_on, color) :=
       get_target_led_states state in
     h ++ on_sequence power COLOR_WHITE (_brightness mgr)
       ++ [Usleep 100000]
       ++ led_sequence netdev netdev_on color (_brightness mgr)
       ++ [Usleep 100000]
       ++ led_sequence disk1 disk1_on color (_brightness mgr)
       ++ [Usleep 100000]
       ++ led_sequence disk2 disk2_on color (_brightness mgr)).
Proof.
  unfold apply_led_state.
  destruct (get_target_led_states state) as [[[n_on d1_on] d2_on] color].
  unfold bind at 1. rewrite set_led_state_on_working_bus.
  cbn [Z.eqb negb led_sequence]. unfold bind, usleep.
  rewrite !handle_led_run, !led_call_on_working_bus. cbn [fst snd Z.eqb andb negb].
  unfold ret. rewrite <- !app_assoc. reflexivity.
Qed.

Lemma update_leds_run_on_working_bus (mgr : led_state_manager_t)
    (info : bandwidth_info_t) (h : list event) :
  valid info = true ->
  let state := determine_state_from_usage mgr (usage_percentage info) in
  update_leds dev mgr info h
  = if led_state_eqb state (_current_state mgr) then ((true, mgr), h)
    else ((true, set_current_state mgr state),
          snd (apply_led_state dev mgr state h)).
Proof.
  intros Hv. cbv zeta. unfold update_leds. rewrite Hv. cbn [negb].
  destruct (led_state_eqb _ _); cbn [negb]; [reflexivity|].
  unfold bind. rewrite apply_led_state_on_working_bus. reflexivity.
Qed.

End WorkingBus.

(** X16.  On a bus whose writes all succeed, [update_leds] with a valid
    reading always succeeds and records the classified state.  When that
    state differs from the recorded one the bus sees, in this order: the
    power LED set to white and turned on, then netdev, disk1 and disk2,
    each either set to the state's colour and turned on or turned off as
    the state prescribes, with 100 ms between LEDs; when the state is the
    recorded one the bus sees nothing. *)
Theorem update_leds_on_working_bus (dev : i2c_device_t)
    (mgr : led_state_manager_t) (info : bandwidth_info_t) (h : list event) :
  (forall k command data, write_block_data dev k command data = 0) ->
  valid info = true ->
  let state := determine_state_from_usage mgr (usage_percentage info) in
  let '(netdev_on, disk1_on, disk2_on, color) := get_target_led_states state in
  let result := update_leds dev mgr info h in
  fst (fst result) = true
  /\ _current_state (snd (fst result)) = state
  /\ (state = _current_state mgr -> snd result = h)
  /\ (state <> _current_state mgr ->
      snd result
      = h ++ on_sequence power COLOR_WHITE (_brightness mgr)
          ++ [Usleep 100000]
          ++ led_sequence netdev netdev_on color (_brightness mgr)
          ++ [Usleep 100000]
          ++ led_sequence disk1 disk1_on color (_brightness mgr)
          ++ [Usleep 100000]
          ++ led_sequence disk2 disk2_on color (_brightness mgr)).
Proof.
  intros Hbus Hv. cbv zeta.
  rewrite (update_leds_run_on_working_bus dev Hbus mgr info h Hv). cbv zeta.
  set (state := determine_state_from_usage mgr (usage_percentage info)).
  rewrite (apply_led_state_on_working_bus dev Hbus mgr state h).
  destruct (get_target_led_states state) as [[[n_on d1_on] d2_on] color].
  destruct (led_state_eqb state (_current_state mgr)) eqn:E; cbn [fst snd].
  - apply led_state_eqb_eq in E.
    repeat split; auto. intros Hne. contradiction.
  - cbn [_current_state].
    repeat split; auto. intros Heq.
    apply led_state_eqb_eq in Heq. congruence.
Qed.

Lemma update_leds_on_working_bus_witness :
  fst (fst (update_leds healthy_device default_manager (reading 15) [])) = true
  /\ snd (update_leds healthy_device default_manager (reading 15) [])
     = [] ++ on_sequence power COLOR_WHITE 255 ++ [Usleep 100000]
          ++ on_sequence netdev COLOR_GREEN 255 ++ [Usleep 100000]
          ++ [WriteBlock 2 (command_frame disk1 3 (Some 0, None, None, None))]
          ++ [Usleep 100000]
          ++ [WriteBlock 3 (command_frame disk2 3 (Some 0, None, None, None))].
Proof.
  pose proof (update_leds_on_working_bus healthy_device default_manager
                (reading 15) [] (fun _ _ _ => eq_refl) eq_refl) as H.
  cbv zeta in H.
  change (determine_state_from_usage default_manager
            (usage_percentage (reading 15))) with NETDEV_GREEN in H.
  cbn [get_target_led_states] in H.
  destruct H as (Hok & _ & _ & Htrace).
  split; [exact Hok|]. apply Htrace. discriminate.
Defined.

(** X17.  [update_leds] and [set_state] change nothing of the manager but
    the recorded state: brightness and the three thresholds are as before,
    so the classification of every usage is as before; and the state they
    record is either the old one or the requested one. *)
Theorem manager_configuration_is_kept (dev : i2c_device_t)
    (mgr : led_state_manager_t) (info : bandwidth_info_t)
    (state : led_state_t) (h : list event) :
  let updated := snd (fst (update_leds dev mgr info h)) in
  let set := snd (fst (set_state dev mgr state h)) in
  (_brightness updated, _low_threshold updated, _medium_threshold updated,
   _high_threshold updated)
  = (_brightness mgr, _low_threshold mgr, _medium_threshold mgr,
     _high_threshold mgr)
  /\ (_brightness set, _low_threshold set, _medium_threshold set,
      _high_threshold set)
     = (_brightness mgr, _low_threshold mgr, _medium_threshold mgr,
        _high_threshold mgr)
  /\ (forall usage, determine_state_from_usage updated usage
                    = determine_state_from_usage mgr usage)
  /\ (_current_state updated = _current_state mgr
      \/ _current_state updated
         = determine_state_from_usage mgr (usage_percentage info))
  /\ (_current_state set = _current_state mgr \/ _current_state set = state).
Proof.
  cbv zeta.
  assert (Hu : snd (fst (update_leds dev mgr info h)) = mgr
               \/ snd (fst (update_leds dev mgr info h))
                  = set_current_state mgr
                      (determine_state_from_usage mgr (usage_percentage info))).
  { unfold update_leds, bind, ret.
    destruct (negb (valid info)); [left; reflexivity|].
    destruct (negb (led_state_eqb _ _)); [|left; reflexivity].
    match goal with
    | |- context [let '(_, _) := ?m in _] => destruct m as [[|] k]
    end; [right | left]; reflexivity. }
  assert (Hs : snd (fst (set_state dev mgr state h)) = mgr
               \/ snd (fst (set_state dev mgr state h))
                  = set_current_state mgr state).
  { unfold set_state, bind, ret.
    destruct (apply_led_state dev mgr state h) as [[|] k];
      [right | left]; reflexivity. }
  destruct Hu as [-> | ->], Hs as [-> | ->];
    unfold determine_state_from_usage; cbn; repeat split; auto.
Qed.

(** * The service loops *)

Lemma ten_invalid_in_a_row_short (c : nat) :
  (c < 10)%nat -> ~ ten_invalid_in_a_row (repeat false c).
Proof.
  intros Hc (i & Hi). specialize (Hi 9%nat ltac:(lia)).
  rewrite nth_overflow in Hi by (rewrite repeat_length; lia). discriminate.
Qed.

Lemma ten_invalid_in_a_row_after_valid (c : nat) (flags : list bool) :
  (c < 10)%nat ->
  (ten_invalid_in_a_row (repeat false c ++ true :: flags)
   <-> ten_invalid_in_a_row flags).
Proof.
  intros Hc. unfold ten_invalid_in_a_row. split; intros (i & Hi).
  - destruct (Nat.le_gt_cases i c) as [Hle | Hgt].
    + specialize (Hi (c - i)%nat ltac:(lia)).
      replace (i + (c - i))%nat with (length (repeat false c) + 0)%nat in Hi
        by (rewrite repeat_length; lia).
      rewrite app_nth2_plus in Hi. discriminate.
    + exists (i - c - 1)%nat. intros j Hj. specialize (Hi j Hj).
      replace (i + j)%nat
        with (length (repeat false c) + S (i - c - 1 + j))%nat in Hi
        by (rewrite repeat_length; lia).
      rewrite app_nth2_plus in Hi. exact Hi.
  - exists (c + 1 + i)%nat. intros j Hj. specialize (Hi j Hj).
    replace (c + 1 + i + j)%nat
      with (length (repeat false c) + S (i + j))%nat
      by (rewrite repeat_length; lia).
    rewrite app_nth2_plus. exact Hi.
Qed.

Lemma ten_invalid_in_a_row_reached (flags : list bool) :
  ten_invalid_in_a_row (repeat false 9 ++ false :: flags).
Proof.
  exists 0%nat. intros j Hj.
  change (repeat false 9 ++ false :: flags) with (repeat false 10 ++ flags).
  rewrite app_nth1 by (rewrite repeat_length; lia).
  cbn [Nat.add]. do 10 (destruct j as [|j]; [reflexivity|]). lia.
Qed.

Lemma normal_loop_gives_up_iff (dev : i2c_device_t)
    (samples : list network_stats_t) :
  forall (bm : bandwidth_monitor_t) (sm : led_state_manager_t) (c : Z)
         (h : list event),
    0 <= c < 10 ->
    (fst (fst (fst (normal_loop dev samples bm sm c h))) = false
     <-> ten_invalid_in_a_row
           (repeat false (Z.to_nat c) ++ validity_flags bm samples)).
Proof.
  induction samples as [|s rest IH]; intros bm sm c h Hc.
  - cbn [normal_loop validity_flags]. rewrite app_nil_r. unfold ret. cbn [fst].
    split; [discriminate|].
    intros H. exfalso. revert H. apply ten_invalid_in_a_row_short. lia.
  - cbn [normal_loop validity_flags].
    destruct (get_bandwidth_usage bm s) as [info bm'].
    destruct (valid info).
    + unfold bind.
      destruct (update_leds dev sm info h) as [updated k].
      rewrite (IH bm' (snd updated) 0 k) by lia.
      change (repeat false (Z.to_nat 0)) with (@nil bool). cbn [app].
      symmetry. apply ten_invalid_in_a_row_after_valid. lia.
    + cbv zeta. destruct (Z.geb_spec (c + 1) 10) as [Hge | Hlt].
      * unfold ret. cbn [fst]. split; [intros _ | reflexivity].
        replace (Z.to_nat c) with 9%nat by lia.
        apply ten_invalid_in_a_row_reached.
      * rewrite (IH bm' sm (c + 1) h) by lia.
        replace (Z.to_nat (c + 1)) with (S (Z.to_nat c)) by lia.
        replace (repeat false (S (Z.to_nat c)))
          with (repeat false (Z.to_nat c) ++ [false])
          by (symmetry; apply repeat_cons).
        rewrite <- app_assoc. reflexivity.
Qed.

(** X18.  [run_normal_mode] fails at once when the monitor cannot be
    initialised; otherwise it returns failure exactly when ten
    consecutive readings are invalid, and success when [g_running] is
    cleared before that.  The outcome does not depend on the LED
    controller: a failed LED update never stops the loop. *)
Theorem run_normal_mode_gives_up_iff (dev : i2c_device_t)
    (capacity_mbps : Z) (sm : led_state_manager_t) (exists_ : bool)
    (first : network_stats_t) (samples : list network_stats_t)
    (h : list event) :
  let init := initialize (bandwidth_monitor capacity_mbps) exists_ first in
  let run := run_normal_mode dev (bandwidth_monitor capacity_mbps) sm
               exists_ first samples h in
  (fst init = false -> run = ((false, snd init, sm), h))
  /\ (fst init = true ->
      (fst (fst (fst run)) = false
       <-> ten_invalid_in_a_row (validity_flags (snd init) samples))).
Proof.
  cbv zeta. unfold run_normal_mode.
  destruct (initialize (bandwidth_monitor capacity_mbps) exists_ first)
    as [ok bm]. cbn [fst snd].
  split; intros ->; cbn [negb]; [reflexivity|].
  apply (normal_loop_gives_up_iff dev samples bm sm 0 h). lia.
Qed.

Lemma run_normal_mode_gives_up_iff_witness :
  fst (fst (fst (run_normal_mode dead_device (bandwidth_monitor 2000)
                   default_manager true (sample_at 0 1000 2000)
                   (repeat (unreadable 5) 10) []))) = false.
Proof.
  apply (proj2 (run_normal_mode_gives_up_iff dead_device 2000 default_manager
                  true (sample_at 0 1000 2000) (repeat (unreadable 5) 10) [])
           eq_refl).
  exists 0%nat. intros j Hj.
  do 10 (destruct j as [|j]; [reflexivity|]). lia.
Defined.

Lemma testing_loop_on_working_bus (dev : i2c_device_t) (iterations : nat) :
  (forall k command data, write_block_data dev k command data = 0) ->
  forall (sm : led_state_manager_t) (current_state : Z) (h : list event),
    0 <= current_state < 4 ->
    fst (fst (testing_loop dev iterations sm current_state h)) = true
    /\ (iterations <> 0%nat ->
        _current_state (snd (fst (testing_loop dev iterations sm
                                    current_state h)))
        = determine_state_from_usage sm
            (test_usage ((current_state + Z.of_nat iterations - 1) mod 4))).
Proof.
  intros Hbus. induction iterations as [|n IH]; intros sm cs h Hcs.
  - split; [reflexivity | congruence].
  - cbn [testing_loop]. unfold bind.
    rewrite (update_leds_run_on_working_bus dev Hbus sm
               (fake_bandwidth (test_usage cs)) h eq_refl).
    cbv zeta. cbn [usage_percentage fake_bandwidth].
    set (state := determine_state_from_usage sm (test_usage cs)).
    assert (Hstep : exists sm' k,
              (if led_state_eqb state (_current_state sm)
               then ((true, sm), h)
               else ((true, set_current_state sm state),
                     snd (apply_led_state dev sm state h)))
              = ((true, sm'), k)
              /\ _current_state sm' = state
              /\ (forall usage, determine_state_from_usage sm' usage
                                = determine_state_from_usage sm usage)).
    { destruct (led_state_eqb state (_current_state sm)) eqn:E.
      - apply led_state_eqb_eq in E. exists sm, h. auto.
      - exists (set_current_state sm state), (snd (apply_led_state dev sm state h)).
        auto. }
    destruct Hstep as (sm' & k & -> & Hst & Hsame).
    cbn [fst snd negb].
    assert (Hnext : 0 <= (cs + 1) mod 4 < 4) by (apply Z.mod_pos_bound; lia).
    destruct (IH sm' ((cs + 1) mod 4) k Hnext) as [IHok IHst].
    split; [exact IHok|]. intros _.
    destruct n as [|n'].
    + cbn [testing_loop]. unfold ret. cbn [fst snd].
      replace ((cs + Z.of_nat 1 - 1) mod 4) with cs
        by (rewrite Z.mod_small; lia).
      exact Hst.
    + rewrite IHst by discriminate. rewrite Hsame. f_equal. f_equal.
      replace ((cs + 1) mod 4 + Z.of_nat (S n') - 1)
        with ((cs + 1) mod 4 + (Z.of_nat (S n') - 1)) by lia.
      rewrite Zplus_mod_idemp_l. f_equal. lia.
Qed.

(** X19.  On a bus whose writes all succeed, [run_testing_mode] never
    fails, and after any positive number of iterations the recorded state
    is the classification of the test usage applied last (5, 25, 60, 90
    percent in rotation); with the thresholds 10/40/80 these four are
    OFF, LOW, MEDIUM and HIGH as the descriptions of the test states say.
    On any bus, the first update that fails ends the run with failure. *)
Theorem run_testing_mode_cycles (dev : i2c_device_t) (iterations : nat)
    (sm : led_state_manager_t) (h : list event) :
  ((forall k command data, write_block_data dev k command data = 0) ->
   fst (fst (run_testing_mode dev iterations sm h)) = true
   /\ (iterations <> 0%nat ->
       _current_state (snd (fst (run_testing_mode dev iterations sm h)))
       = determine_state_from_usage sm
           (test_usage ((Z.of_nat iterations - 1) mod 4))))
  /\ (fst (fst (update_leds dev sm (fake_bandwidth (test_usage 0)) h)) = false ->
      run_testing_mode dev (S iterations) sm h
      = ((false, sm),
         snd (update_leds dev sm (fake_bandwidth (test_usage 0)) h)))
  /\ map (fun i => determine_state_from_usage default_manager (test_usage i))
       [0; 1; 2; 3]
     = [UTILIZATION_OFF; NETDEV_GREEN; NETDEV_DISK1_BLUE; ALL_UTILIZATION_RED].
Proof.
  split; [|split; [|vm_compute; reflexivity]].
  - intros Hbus. unfold run_testing_mode.
    apply (testing_loop_on_working_bus dev iterations Hbus sm 0 h). lia.
  - intros Hfail. unfold run_testing_mode. cbn [testing_loop]. unfold bind.
    assert (Hkeep : snd (fst (update_leds dev sm (fake_bandwidth (test_usage 0)) h))
                    = sm).
    { revert Hfail. unfold update_leds, bind, ret.
      destruct (negb (valid _)); [reflexivity|].
      destruct (negb (led_state_eqb _ _)); [|discriminate].
      match goal with
      | |- context [let '(_, _) := ?m in _] => destruct m as [[|] k]
      end; cbn [fst snd]; [discriminate | reflexivity]. }
    destruct (update_leds dev sm (fake_bandwidth (test_usage 0)) h)
      as [[ok sm'] k].
    cbn [fst snd] in *. subst ok sm'. reflexivity.
Qed.

Lemma run_testing_mode_cycles_witness :
  fst (fst (run_testing_mode healthy_device 6 default_manager [])) = true
  /\ _current_state (snd (fst (run_testing_mode healthy_device 6
                                 default_manager [])))
     = NETDEV_GREEN.
Proof.
  destruct (proj1 (run_testing_mode_cycles healthy_device 6 default_manager [])
              (fun _ _ _ => eq_refl)) as [Hok Hst].
  split; [exact Hok|]. rewrite Hst by discriminate. reflexivity.
Defined.

(** * Configuration file parser *)

Module ConfigParserFacts.
Import Ascii String ConfigParser.

Lemma find_last_none_iff (s : str) :
  find_last_not_of s = None <-> forallb is_trim_char s = true.
Proof.
  induction s as [|c rest IH]; cbn [find_last_not_of forallb].
  - split; reflexivity.
  - destruct (find_last_not_of rest) as [i|].
    + split; [discriminate|]. intros H. apply andb_true_iff in H.
      destruct H as [_ H]. apply IH in H. discriminate.
    + destruct (is_trim_char c); cbn [andb].
      * split; [intros _; apply IH; reflexivity | reflexivity].
      * split; discriminate.
Qed.

Lemma find_first_none_iff (s : str) :
  find_first_not_of s = None <-> forallb is_trim_char s = true.
Proof.
  induction s as [|c rest IH]; cbn [find_first_not_of forallb].
  - split; reflexivity.
  - destruct (is_trim_char c); cbn [andb].
    + destruct (find_first_not_of rest); cbn [option_map].
      * split; [discriminate|]. intros H. apply IH in H. discriminate.
      * split; [intros _; apply IH; reflexivity | reflexivity].
    + split; discriminate.
Qed.

Lemma find_last_lt (s : str) (i : nat) :
  find_last_not_of s = Some i -> (i < List.length s)%nat.
Proof.
  revert i. induction s as [|c rest IH]; cbn [find_last_not_of]; intros i H.
  - discriminate.
  - destruct (find_last_not_of rest) as [j|].
    + injection H as <-. specialize (IH j eq_refl). cbn [List.length]. lia.
    + destruct (is_trim_char c); [discriminate|]. injection H as <-.
      cbn [List.length]. lia.
Qed.

Lemma first_le_last (s : str) (i : nat) :
  find_first_not_of s = Some i ->
  exists e, find_last_not_of s = Some e /\ (i <= e)%nat.
Proof.
  revert i. induction s as [|c rest IH]; cbn [find_first_not_of find_last_not_of];
    intros i H; [discriminate|].
  destruct (is_trim_char c) eqn:Hc.
  - destruct (find_first_not_of rest) as [j|]; [|discriminate].
    cbn [option_map] in H. injection H as <-.
    destruct (IH j eq_refl) as (e & -> & Hle). exists (S e). split; [reflexivity | lia].
  - injection H as <-. destruct (find_last_not_of rest) as [j|].
    + exists (S j). split; [reflexivity | lia].
    + exists 0%nat. split; [reflexivity | lia].
Qed.

Lemma trim_cons_space (c : ascii) (s : str) :
  is_trim_char c = true -> trim (c :: s) = trim s.
Proof.
  intros Hc. unfold trim. cbn [find_first_not_of find_last_not_of]. rewrite Hc.
  destruct (find_first_not_of s) as [i|] eqn:F; cbn [option_map]; [|reflexivity].
  destruct (first_le_last s i F) as (e & -> & Hle).
  unfold substr. cbn [skipn]. f_equal; lia.
Qed.

Lemma trim_cons_char (c : ascii) (s : str) :
  is_trim_char c = false -> trim (c :: s) = c :: rstrip s.
Proof.
  intros Hc. unfold trim, rstrip. cbn [find_first_not_of find_last_not_of].
  rewrite Hc. destruct (find_last_not_of s) as [i|]; unfold substr; cbn [skipn].
  - replace (S i - 0 + 1)%nat with (S (S i)) by lia. reflexivity.
  - reflexivity.
Qed.

Lemma rstrip_cons (c : ascii) (s : str) :
  rstrip (c :: s)
  = match find_last_not_of s with
    | Some _ => c :: rstrip s
    | None => if is_trim_char c then [] else [c]
    end.
Proof.
  unfold rstrip. cbn [find_last_not_of].
  destruct (find_last_not_of s) as [i|]; [reflexivity|].
  destruct (is_trim_char c); reflexivity.
Qed.

Lemma rstrip_split (s : str) :
  exists post, s = rstrip s ++ post /\ forallb is_trim_char post = true.
Proof.
  induction s as [|c rest (post & E & Hpost)].
  - exists []. split; reflexivity.
  - rewrite rstrip_cons. destruct (find_last_not_of rest) as [i|] eqn:F.
    + exists post. split; [cbn [app]; f_equal; exact E | exact Hpost].
    + apply find_last_none_iff in F. destruct (is_trim_char c) eqn:Hc.
      * exists (c :: rest). split; [reflexivity|]. cbn [forallb].
        rewrite Hc, F. reflexivity.
      * exists rest. split; [reflexivity | exact F].
Qed.

Lemma rstrip_end (s : str) :
  rstrip s = []
  \/ exists front c, rstrip s = front ++ [c] /\ is_trim_char c = false.
Proof.
  induction s as [|c rest IH]; [left; reflexivity|].
  rewrite rstrip_cons. destruct (find_last_not_of rest) as [i|] eqn:F.
  - right. destruct IH as [E | (front & c' & E & Hc')].
    + pose proof (find_last_lt rest i F) as Hlt.
      unfold rstrip in E. rewrite F in E.
      destruct rest; [cbn in Hlt; lia | discriminate].
    + exists (c :: front), c'. rewrite E. split; [reflexivity | exact Hc'].
  - destruct (is_trim_char c) eqn:Hc; [left; reflexivity|].
    right. exists [], c. split; [reflexivity | exact Hc].
Qed.

Lemma find_last_app_spaces (s post : str) :
  forallb is_trim_char post = true ->
  find_last_not_of (s ++ post) = find_last_not_of s.
Proof.
  intros Hpost. induction s as [|c rest IH]; cbn [app find_last_not_of].
  - apply find_last_none_iff. exact Hpost.
  - rewrite IH. reflexivity.
Qed.

Lemma find_last_snoc (front : str) (c : ascii) :
  is_trim_char c = false ->
  find_last_not_of (front ++ [c]) = Some (List.length front).
Proof.
  intros Hc. induction front as [|x rest IH]; cbn [app find_last_not_of List.length].
  - rewrite Hc. reflexivity.
  - rewrite IH. reflexivity.
Qed.

Lemma rstrip_padded (front : str) (c : ascii) (post : str) :
  is_trim_char c = false -> forallb is_trim_char post = true ->
  rstrip ((front ++ [c]) ++ post) = front ++ [c].
Proof.
  intros Hc Hpost. unfold rstrip.
  rewrite find_last_app_spaces, find_last_snoc by assumption.
  replace (S (List.length front)) with (List.length (front ++ [c]) + 0)%nat
    by (rewrite length_app; cbn; lia).
  rewrite firstn_app_2. cbn [firstn]. apply app_nil_r.
Qed.

Lemma trim_padded (pre token post : str) :
  forallb is_trim_char pre = true -> forallb is_trim_char post = true ->
  clean token -> trim (pre ++ token ++ post) = token.
Proof.
  intros Hpre Hpost (c & front & c' & rest & E1 & E2 & Hc & Hc').
  induction pre as [|x pre IH]; cbn [app].
  - rewrite E1. cbn [app]. rewrite trim_cons_char by exact Hc. f_equal.
    destruct front as [|y front].
    + rewrite E1 in E2. injection E2 as _ ->. cbn [app].
      unfold rstrip. replace (find_last_not_of post) with (@None nat);
        [reflexivity|]. symmetry. apply find_last_none_iff. exact Hpost.
    + rewrite E1 in E2. injection E2 as _ ->.
      apply rstrip_padded; assumption.
  - cbn [forallb] in Hpre. apply andb_true_iff in Hpre. destruct Hpre as [Hx Hpre].
    rewrite trim_cons_space by exact Hx. apply IH. exact Hpre.
Qed.

Lemma trim_clean (token : str) : clean token -> trim token = token.
Proof.
  intros H. rewrite <- (trim_padded [] token [] eq_refl eq_refl H) at 2.
  cbn [app]. rewrite app_nil_r. reflexivity.
Qed.

Lemma trim_empty_or_clean (s : str) : trim s = [] \/ clean (trim s).
Proof.
  induction s as [|c rest IH]; [left; reflexivity|].
  destruct (is_trim_char c) eqn:Hc.
  - rewrite trim_cons_space by exact Hc. exact IH.
  - rewrite trim_cons_char by exact Hc. right.
    destruct (rstrip_end rest) as [-> | (front & c' & -> & Hc')].
    + exists c, [], c, []. repeat split; assumption.
    + exists c, (c :: front), c', (front ++ [c']). repeat split; assumption.
Qed.

(** X20.  [trim] removes whitespace (space, tab, CR, LF) from the two ends
    and nothing else: the input is the result between a run of whitespace
    on each side; the result is empty or begins and ends with a
    non-whitespace character; and trimming twice is trimming once. *)
Theorem trim_strips_both_ends (s : str) :
  (exists pre post,
     s = pre ++ trim s ++ post
     /\ forallb is_trim_char pre = true
     /\ forallb is_trim_char post = true)
  /\ (trim s = [] \/ clean (trim s))
  /\ (trim s = [] <-> forallb is_trim_char s = true)
  /\ trim (trim s) = trim s.
Proof.
  split; [|split; [exact (trim_empty_or_clean s)|split]].
  - induction s as [|c rest (pre & post & E & Hpre & Hpost)].
    + exists [], []. repeat split.
    + destruct (is_trim_char c) eqn:Hc.
      * rewrite trim_cons_space by exact Hc. exists (c :: pre), post.
        cbn [app forallb]. rewrite Hc, Hpre. repeat split; auto.
        f_equal. exact E.
      * rewrite trim_cons_char by exact Hc.
        destruct (rstrip_split rest) as (post' & E' & Hpost').
        exists [], post'. cbn [app]. repeat split; auto. f_equal. exact E'.
  - unfold trim. destruct (find_first_not_of s) as [i|] eqn:F.
    + destruct (first_le_last s i F) as (e & E & Hle).
      pose proof (find_last_lt s e E) as Hlt. rewrite E.
      split.
      * intros E0. apply (f_equal (@List.length ascii)) in E0.
        unfold substr in E0. rewrite length_firstn, length_skipn in E0.
        cbn [List.length] in E0. lia.
      * intros H. apply find_first_none_iff in H. congruence.
    + split; [intros _; apply find_first_none_iff; exact F | reflexivity].
  - destruct (trim_empty_or_clean s) as [-> | H]; [reflexivity|].
    apply trim_clean. exact H.
Qed.

Lemma str_eqb_refl (a : str) : str_eqb a a = true.
Proof.
  induction a as [|c rest IH]; cbn [str_eqb]; [reflexivity|].
  rewrite Ascii.eqb_refl, IH. reflexivity.
Qed.

Lemma back_is_snoc (c x : ascii) (front : str) :
  back_is c (front ++ [x]) = (x =? c)%char.
Proof. unfold back_is. rewrite rev_app_distr. reflexivity. Qed.

Lemma find_char_app (c : ascii) (a b : str) :
  find_char c a = None ->
  find_char c (a ++ b)
  = option_map (fun i => (List.length a + i)%nat) (find_char c b).
Proof.
  induction a as [|x rest IH]; cbn [app find_char List.length]; intros H.
  - destruct (find_char c b); reflexivity.
  - destruct (x =? c)%char; [discriminate|].
    destruct (find_char c rest); [discriminate|].
    rewrite IH by reflexivity. destruct (find_char c b); reflexivity.
Qed.

Lemma clean_app (a mid b : str) : clean a -> clean b -> clean (a ++ mid ++ b).
Proof.
  intros (c & fa & ca & ra & E1 & _ & Hc & _) (cb & fb & c' & rb & _ & E2 & _ & Hc').
  exists c, (a ++ mid ++ fb), c', (ra ++ mid ++ b).
  repeat split; try assumption.
  - rewrite E1. reflexivity.
  - rewrite E2, <- !app_assoc. reflexivity.
Qed.

Lemma parse_header (data : config_data) (current section : str) :
  clean section ->
  parse_line (data, current) ("["%char :: section ++ ["]"%char])
  = (data, section).
Proof.
  intros Hs.
  assert (Hline : clean ("["%char :: section ++ ["]"%char])).
  { exists "["%char, ("["%char :: section), "]"%char, (section ++ ["]"%char]).
    repeat split. }
  unfold parse_line. rewrite (trim_clean _ Hline).
  change (("[" =? "#")%char || ("[" =? ";")%char) with false. cbv iota.
  change ("["%char :: section ++ ["]"%char])
    with (("["%char :: section) ++ ["]"%char]) at 1.
  rewrite back_is_snoc. cbn [Ascii.eqb Bool.eqb andb]. cbv iota.
  unfold substr. cbn [skipn List.length].
  rewrite length_app. cbn [List.length].
  replace (S (List.length section + 1) - 2)%nat
    with (List.length section + 0)%nat by lia.
  rewrite firstn_app_2. cbn [firstn]. rewrite app_nil_r.
  rewrite (trim_clean _ Hs). reflexivity.
Qed.

Lemma parse_assignment (data : config_data) (section key text : str) :
  clean section -> clean key -> clean text ->
  find_char "=" key = None ->
  front_is "#" key = false -> front_is ";" key = false ->
  front_is "[" key = false ->
  parse_line (data, section) (key ++ lit " = " ++ text)
  = (assign (section ++ "."%char :: key) (unquote text) data, section).
Proof.
  intros Hs Hk Ht Heq Hh Hsc Hb.
  pose proof (clean_app key (lit " = ") text Hk Ht) as Hline.
  unfold parse_line. rewrite (trim_clean _ Hline).
  destruct Hk as (c & fk & ck & rk & E1 & E2 & Hc & Hck).
  rewrite E1 in Hh, Hsc, Hb. cbn [front_is] in Hh, Hsc, Hb.
  rewrite E1 at 1. cbn [app]. rewrite Hh, Hsc, Hb. cbn [orb andb]. cbv iota.
  rewrite (find_char_app "=" key (lit " = " ++ text) Heq).
  change (find_char "=" (lit " = " ++ text)) with (Some 1%nat).
  cbn [option_map].
  assert (Hkey : trim (substr (key ++ lit " = " ++ text) 0 (List.length key + 1))
                 = key).
  { unfold substr. cbn [skipn].
    change (lit " = " ++ text) with ([" "%char] ++ "="%char :: " "%char :: text).
    rewrite app_assoc.
    replace (List.length key + 1)%nat
      with (List.length (key ++ [" "%char]) + 0)%nat
      by (rewrite length_app; cbn; lia).
    rewrite firstn_app_2. cbn [firstn]. rewrite app_nil_r.
    apply (trim_padded [] key [" "%char]); try reflexivity.
    exists c, fk, ck, rk. repeat split; assumption. }
  assert (Hval : trim (skipn (List.length key + 1 + 1) (key ++ lit " = " ++ text))
                 = text).
  { change (lit " = " ++ text) with ([" "%char; "="%char] ++ " "%char :: text).
    rewrite app_assoc.
    replace (List.length key + 1 + 1)%nat
      with (List.length (key ++ [" "%char; "="%char]))
      by (rewrite length_app; cbn; lia).
    rewrite skipn_app, skipn_all, Nat.sub_diag. cbn [app skipn].
    apply (trim_padded [" "%char] text []) in Ht; try reflexivity.
    rewrite app_nil_r in Ht. exact Ht. }
  rewrite Hkey, Hval.
  destruct Hs as (cs & fs & cs' & rs & Es & _).
  rewrite Es at 1. reflexivity.
Qed.

Lemma get_value_assigned (data : config_data) (section key value default_ : str) :
  get_value (assign (section ++ "."%char :: key) value data) section key default_
  = value.
Proof.
  unfold get_value, assign. cbn [find]. rewrite str_eqb_refl. reflexivity.
Qed.

(** X21.  What is written is what is read back: after any lines, a
    section header [[section]] followed by a line [key = value] makes
    [get_value section key] return [value]; when the value is written
    between two double quotes or two single quotes it is the text between
    the quotes that is returned, whitespace included.  Section, key and
    value are tokens without whitespace at their ends; the key has no [=]
    and does not begin with [#], [;] or [[]. *)
Theorem header_then_assignment_is_read_back (old : config_data)
    (before : list str) (section key value default_ : str) :
  clean section -> clean key ->
  find_char "=" key = None ->
  front_is "#" key = false -> front_is ";" key = false ->
  front_is "[" key = false ->
  let parsed text :=
    snd (parse_file old
           (Some (before ++ ["["%char :: section ++ ["]"%char];
                             key ++ lit " = " ++ text]))) in
  (clean value -> unquote value = value ->
   get_value (parsed value) section key default_ = value)
  /\ (forall q, q = "034"%char \/ q = "039"%char ->
      get_value (parsed (q :: value ++ [q])) section key default_ = value).
Proof.
  intros Hs Hk Heq Hh Hsc Hb. cbv beta zeta.
  assert (Hrun : forall text, clean text ->
            snd (parse_file old
                   (Some (before ++ ["["%char :: section ++ ["]"%char];
                                     key ++ lit " = " ++ text])))
            = assign (section ++ "."%char :: key) (unquote text)
                (fst (fold_left parse_line before ([], [])))).
  { intros text Ht. unfold parse_file. cbn [snd].
    rewrite fold_left_app. cbn [fold_left].
    destruct (fold_left parse_line before ([], [])) as [data current].
    rewrite parse_header by exact Hs.
    rewrite parse_assignment by assumption. reflexivity. }
  split.
  - intros Hv Hq. rewrite Hrun by exact Hv. rewrite Hq.
    apply get_value_assigned.
  - intros q Hq.
    assert (Hquoted : clean (q :: value ++ [q])).
    { exists q, (q :: value), q, (value ++ [q]).
      destruct Hq as [-> | ->]; repeat split. }
    rewrite Hrun by exact Hquoted.
    rewrite get_value_assigned.
    unfold unquote.
    change (q :: value ++ [q]) with ((q :: value) ++ [q]).
    rewrite !back_is_snoc.
    assert (Hlen : List.length ((q :: value) ++ [q])
                   = S (S (List.length value)))
      by (rewrite length_app; cbn; lia).
    rewrite Hlen.
    replace (S (S (List.length value)) - 2)%nat
      with (List.length value + 0)%nat by lia.
    cbn [front_is app Nat.leb andb].
    replace ((q =? "034")%char && (q =? "034")%char
             || (q =? "039")%char && (q =? "039")%char) with true
      by (destruct Hq as [-> | ->]; reflexivity).
    unfold substr. cbn [skipn].
    rewrite firstn_app_2. cbn [firstn]. apply app_nil_r.
Qed.

Lemma header_then_assignment_is_read_back_witness :
  get_value
    (snd (parse_file []
            (Some (map lit ["# comment"; "[old]"]%string
                   ++ ["["%char :: lit "leds" ++ ["]"%char];
                       lit "brightness" ++ lit " = " ++ lit "128"]))))
    (lit "leds") (lit "brightness") []
  = lit "128".
Proof.
  assert (C : forall c rest front c',
            c :: rest = front ++ [c'] ->
            is_trim_char c = false -> is_trim_char c' = false ->
            clean (c :: rest)).
  { intros c rest front c' E H1 H2. exists c, front, c', rest. auto. }
  refine (proj1 (header_then_assignment_is_read_back []
                   (map lit ["# comment"; "[old]"]%string)
                   (lit "leds") (lit "brightness") (lit "128") []
                   _ _ eq_refl eq_refl eq_refl eq_refl) _ eq_refl).
  - apply (C _ _ (lit "led") "s"%char); reflexivity.
  - apply (C _ _ (lit "brightnes") "s"%char); reflexivity.
  - apply (C _ _ (lit "12") "8"%char); reflexivity.
Defined.

(** X22.  The file that [create_example_config] writes is read back by
    [parse_file] and [get_value] as the seven settings it states. *)
Theorem example_config_round_trip :
  let data := snd (parse_file [] (Some example_config)) in
  fst (parse_file [] (Some example_config)) = true
  /\ get_value data (lit "network") (lit "interface") [] = lit "eth0"
  /\ get_value data (lit "network") (lit "capacity_mbps") [] = lit "2000"
  /\ get_value data (lit "leds") (lit "brightness") [] = lit "255"
  /\ get_value data (lit "leds") (lit "low_threshold") [] = lit "10"
  /\ get_value data (lit "leds") (lit "medium_threshold") [] = lit "40"
  /\ get_value data (lit "leds") (lit "high_threshold") [] = lit "80"
  /\ get_value data (lit "logging") (lit "level") [] = lit "info".
Proof. cbv zeta. repeat split; vm_compute; reflexivity. Qed.

Lemma parse_bounded_range (stoi : str -> option Z) (data : config_data)
    (key : string) (max old : Z) :
  0 <= max <= 255 -> 0 <= old <= max ->
  0 <= parse_bounded stoi data key max old <= max.
Proof.
  intros Hmax Hold. unfold parse_bounded.
  destruct (get_value data (lit "leds") (lit key) []) as [|c rest]; [exact Hold|].
  destruct (stoi (c :: rest)) as [n|]; [|exact Hold].
  destruct (Z.leb_spec 0 n); cbn [andb]; [|exact Hold].
  destruct (Z.leb_spec n max); [|exact Hold].
  unfold to_u8. rewrite Z.mod_small; lia.
Qed.

(** X23.  [load_config_from_file] fails exactly when the file cannot be
    opened, and then leaves the configuration as it was.  Whatever the
    file holds and whatever the number parsers return, a brightness within
    0..255 stays within 0..255, each threshold within 0..100 stays within
    0..100, and a capacity that fits 32 bits still fits 32 bits. *)
Theorem load_config_from_file_keeps_ranges (stoi stoul : str -> option Z)
    (old : config_data) (file : option (list str)) (config : ledctl_config_t) :
  let loaded := load_config_from_file stoi stoul old file config in
  let config' := snd loaded in
  (fst (fst loaded) = false <-> file = None)
  /\ (file = None -> loaded = (false, old, config))
  /\ (0 <= brightness config <= 255 -> 0 <= brightness config' <= 255)
  /\ (0 <= low_threshold config <= 100 -> 0 <= low_threshold config' <= 100)
  /\ (0 <= medium_threshold config <= 100 ->
      0 <= medium_threshold config' <= 100)
  /\ (0 <= high_threshold config <= 100 -> 0 <= high_threshold config' <= 100)
  /\ (0 <= capacity_mbps config < 2 ^ 32 ->
      0 <= capacity_mbps config' < 2 ^ 32).
Proof.
  cbv zeta. unfold load_config_from_file.
  destruct file as [lines|]; cbn [parse_file negb fst snd].
  2: { repeat split; auto; intros; lia. }
  split; [split; discriminate|]. split; [discriminate|].
  cbn [brightness low_threshold medium_threshold high_threshold capacity_mbps].
  repeat split; try (apply parse_bounded_range; lia);
    try (destruct (get_value _ (lit "network") (lit "capacity_mbps") []);
         [lia | destruct (stoul _); [apply Z.mod_pos_bound; lia | lia]]).
Qed.

(** X24.  [load_config] never reports failure.  A local file that exists
    and can be opened is the one loaded, and the system file is then not
    looked at; when no file exists, or none can be opened, the
    configuration is returned as it was. *)
Theorem load_config_never_fails (stoi stoul : str -> option Z)
    (old : config_data) (local_exists system_exists : bool)
    (local_file system_file : option (list str)) (config : ledctl_config_t) :
  let loaded := load_config stoi stoul old local_exists local_file
                  system_exists system_file config in
  fst (fst loaded) = true
  /\ (local_exists = true -> local_file <> None ->
      loaded = load_config_from_file stoi stoul old local_file config)
  /\ ((local_exists = false \/ local_file = None) ->
      system_exists = true -> system_file <> None ->
      loaded = load_config_from_file stoi stoul old system_file config)
  /\ ((local_exists = false \/ local_file = None) ->
      (system_exists = false \/ system_file = None) ->
      loaded = (true, old, config)).
Proof.
  cbv zeta. unfold load_config, load_config_from_file.
  destruct local_exists, local_file as [l|], system_exists, system_file as [y|];
    cbn [parse_file negb fst snd];
    repeat split; try reflexivity; try congruence;
    intros; repeat match goal with
                   | H : _ \/ _ |- _ => destruct H
                   end; congruence.
Qed.

End ConfigParserFacts.
